(** * Stockfighter client: the typed request/response pipeline

    A shallow embedding of the Go client: [PerformRequest] and the ten
    endpoint methods of the settled interface, and the earlier draft of
    [main.go] ([Heartbeat], [VenueHeartbeat], [VenueStocks], [VenueOrders],
    [PlaceOrder]).  The repository holds a third program between the two,
    whose methods are those of [main.go] over the types of the settled
    client; it is not repeated here.

    The network and the two library packages the client calls are the
    environment of the program:
    - [net/http] is a function from the request the program builds to the
      pair [(resp, err)] Go returns;
    - [encoding/json] is modelled over the parsed document (a tree), with
      the rules of [Decoder.Decode] for the struct shapes of the client;
    - [fmt.Sprintf] is modelled for the verbs the URL templates use. *)

From Stdlib Require Import String Ascii ZArith List Bool Lia DecimalString.
Import ListNotations.
Open Scope string_scope.
Open Scope Z_scope.

Set Implicit Arguments.
Set Warnings "-register-all".

(* ------------------------------------------------------------------ *)
(** ** Outcomes of a Go call: a returned value or a run-time panic *)

Inductive Outcome (A : Type) : Type :=
| Return (a : A)
| Panic (msg : string).
Arguments Return {A} a.
Arguments Panic {A} msg.

(** The one panic the client can raise: a field read or a method call
    through a nil pointer. *)
Definition nil_dereference : string :=
  "runtime error: invalid memory address or nil pointer dereference".

(* ------------------------------------------------------------------ *)
(** ** fmt.Sprintf, for the verbs of the URL templates *)

Inductive FmtArg : Type :=
| AStr (s : string)
| AInt (n : Z).

(** [%d] of a Go [int]: the decimal digits, with a minus sign. *)
Definition itoa (n : Z) : string := NilZero.string_of_int (Z.to_int n).

(** What Go prints for an operand whose verb does not fit its type. *)
Definition bad_verb (verb : ascii) (a : FmtArg) : string :=
  match a with
  | AStr s => "%!" ++ String verb ("(string=" ++ s ++ ")")
  | AInt n => "%!" ++ String verb ("(int=" ++ itoa n ++ ")")
  end.

Definition extra_arg (a : FmtArg) : string :=
  match a with
  | AStr s => "string=" ++ s
  | AInt n => "int=" ++ itoa n
  end.

(** The templates of the client hold only plain [%s] and [%d] (no flags,
    width or precision), which is what is modelled, with Go's rendering of
    a missing operand, of an operand of the other type and of operands left
    over. *)
Fixpoint Sprintf_from (fmt : string) (args : list FmtArg) : string :=
  match fmt with
  | EmptyString =>
      match args with
      | [] => EmptyString
      | a :: rest =>
          "%!(EXTRA " ++ extra_arg a
          ++ String.concat EmptyString (map (fun x => ", " ++ extra_arg x) rest)
          ++ ")"
      end
  | String "%" EmptyString => "%!(NOVERB)"
  | String "%" (String "%" rest) => String "%" (Sprintf_from rest args)
  | String "%" (String verb rest) =>
      match args with
      | [] => "%!" ++ String verb ("(MISSING)" ++ Sprintf_from rest [])
      | a :: args' =>
          (match verb, a with
           | "s"%char, AStr s => s
           | "d"%char, AInt n => itoa n
           | _, _ => bad_verb verb a
           end) ++ Sprintf_from rest args'
      end
  | String c rest => String c (Sprintf_from rest args)
  end.

Definition Sprintf (fmt : string) (args : list FmtArg) : string :=
  Sprintf_from fmt args.

(* ------------------------------------------------------------------ *)
(** ** encoding/json: the parsed document *)

Definition error : Type := string.

(** A JSON document as the decoder sees it once its text is tokenised.
    [JNum n] is an integer literal (the digits [itoa n] prints); [JFrac] is
    a number literal with a fraction or an exponent, kept as text.  Object
    members are kept in the order of the text, repeats included. *)
Inductive json : Type :=
| JNull
| JBool (b : bool)
| JNum (n : Z)
| JFrac (literal : string)
| JStr (s : string)
| JArr (elements : list json)
| JObj (members : list (string * json)).

(** [time.Time] decodes itself through its own [UnmarshalJSON]; the client
    never looks inside a time value, so the package is an interface here. *)
Class TimeLib : Type := {
  Time : Type;
  Time_zero : Time;
  Time_UnmarshalJSON : json -> Time -> Time * option error
}.

(** How the decoder leaves a value: without complaint, with a type error
    that it records before it goes on with the rest of the document
    ([saveError]), or with an error that stops it at once (what an
    [Unmarshaler] returns). *)
Inductive Verdict : Type :=
| Fine
| Saved (e : error)
| Abort (e : error).

Definition Dec (T : Type) : Type := json -> T -> T * Verdict.

Definition type_error (value field : string) : error :=
  "json: cannot unmarshal " ++ value ++ " into Go value of type " ++ field.

Definition describe (j : json) : string :=
  match j with
  | JNull => "null"
  | JBool _ => "bool"
  | JNum _ | JFrac _ => "number"
  | JStr _ => "string"
  | JArr _ => "array"
  | JObj _ => "object"
  end.

Definition dec_bool : Dec bool := fun j cur =>
  match j with
  | JBool b => (b, Fine)
  | JNull => (cur, Fine)
  | _ => (cur, Saved (type_error (describe j) "bool"))
  end.

Definition dec_string : Dec string := fun j cur =>
  match j with
  | JStr s => (s, Fine)
  | JNull => (cur, Fine)
  | _ => (cur, Saved (type_error (describe j) "string"))
  end.

(** Go's [int] on the 64-bit targets: a literal out of range is a type
    error, like a literal with a fraction. *)
Definition dec_int : Dec Z := fun j cur =>
  match j with
  | JNum n =>
      if (-(2 ^ 63) <=? n) && (n <? 2 ^ 63) then (n, Fine)
      else (cur, Saved (type_error "number" "int"))
  | JNull => (cur, Fine)
  | _ => (cur, Saved (type_error (describe j) "int"))
  end.

Definition dec_uint64 : Dec Z := fun j cur =>
  match j with
  | JNum n =>
      if (0 <=? n) && (n <? 2 ^ 64) then (n, Fine)
      else (cur, Saved (type_error "number" "uint64"))
  | JNull => (cur, Fine)
  | _ => (cur, Saved (type_error (describe j) "uint64"))
  end.

Definition dec_time `{TimeLib} : Dec Time := fun j cur =>
  match Time_UnmarshalJSON j cur with
  | (t, None) => (t, Fine)
  | (t, Some e) => (t, Abort e)
  end.

(** The first recorded error is the one the decoder reports. *)
Definition keep_first (saved : option error) (v : Verdict) : option error :=
  match saved, v with
  | Some e, _ => Some e
  | None, Saved e => Some e
  | None, _ => None
  end.

Definition close_verdict (saved : option error) : Verdict :=
  match saved with
  | Some e => Saved e
  | None => Fine
  end.

(** A Go slice: [None] is the nil slice, [Some []] an empty one. *)
Definition slice (T : Type) : Type := option (list T).

(** The elements of a JSON array, each decoded onto a zero element.  (A
    slice member that an object repeats is decoded afresh here; Go decodes
    the repeat onto the elements the first occurrence left.) *)
Fixpoint dec_elements {T : Type} (zero : T) (d : Dec T) (js : list json)
    (saved : option error) : list T * Verdict :=
  match js with
  | [] => ([], close_verdict saved)
  | j :: rest =>
      match d j zero with
      | (t, Abort e) => ([t], Abort e)
      | (t, v) =>
          let (ts, v') := dec_elements zero d rest (keep_first saved v) in
          (t :: ts, v')
      end
  end.

Definition dec_slice {T : Type} (zero : T) (d : Dec T) (field : string)
  : Dec (slice T) := fun j cur =>
  match j with
  | JArr js => let (ts, v) := dec_elements zero d js None in (Some ts, v)
  | JNull => (None, Fine)
  | _ => (cur, Saved (type_error (describe j) field))
  end.

(** ASCII case folding: the decoder takes a member whose name equals the
    field's tag up to the case of its letters. *)
Definition lower (c : ascii) : ascii :=
  let n := nat_of_ascii c in
  if (Nat.leb 65 n && Nat.leb n 90)%bool then ascii_of_nat (n + 32) else c.

Fixpoint fold_case (s : string) : string :=
  match s with
  | EmptyString => EmptyString
  | String c rest => String (lower c) (fold_case rest)
  end.

Definition key_eq (key tag : string) : bool :=
  String.eqb (fold_case key) (fold_case tag).

(** A struct's fields as a setter: [None] when the member names no field of
    the struct (the decoder then skips the member). *)
Definition Setter (T : Type) : Type := string -> json -> T -> option (T * Verdict).

(** One field, by tag. *)
Definition field {T F : Type} (tag : string) (d : Dec F) (get : T -> F)
    (set : F -> T -> T) : Setter T := fun key j t =>
  if key_eq key tag
  then let (f, v) := d j (get t) in Some (set f t, v)
  else None.

(** The promoted fields of an embedded struct. *)
Definition embedded {T E : Type} (s : Setter E) (get : T -> E)
    (set : E -> T -> T) : Setter T := fun key j t =>
  match s key j (get t) with
  | Some (e, v) => Some (set e t, v)
  | None => None
  end.

Definition orelse {T : Type} (a b : Setter T) : Setter T := fun key j t =>
  match a key j t with
  | Some r => Some r
  | None => b key j t
  end.

Definition no_field {T : Type} : Setter T := fun _ _ _ => None.

(** The members of a JSON object, in order, onto a struct. *)
Fixpoint dec_members {T : Type} (s : Setter T) (members : list (string * json))
    (t : T) (saved : option error) : T * Verdict :=
  match members with
  | [] => (t, close_verdict saved)
  | (key, j) :: rest =>
      match s key j t with
      | None => dec_members s rest t saved
      | Some (t', Abort e) => (t', Abort e)
      | Some (t', v) => dec_members s rest t' (keep_first saved v)
      end
  end.

Definition dec_struct {T : Type} (name : string) (s : Setter T) : Dec T :=
  fun j t =>
  match j with
  | JObj members => dec_members s members t None
  | JNull => (t, Fine)
  | _ => (t, Saved (type_error (describe j) name))
  end.

(* ------------------------------------------------------------------ *)
(** ** net/http: requests, responses, and what the program observes *)

(** What the program hands to the HTTP client: [http.Get] and
    [http.NewRequest] with a nil body set no header and no body;
    [http.Post url contentType body] sets the [Content-Type] header to its
    second argument and the body to its third. *)
Record Request : Type := {
  Method : string;
  URL : string;
  Header : list (string * string);
  Body : option string
}.

(** The response: its status code and its body, [None] when no JSON value
    can be read from it (empty, malformed, or cut short). *)
Record Response : Type := {
  StatusCode : Z;
  RespBody : option json
}.

(** The world outside the program.  [roundTrip] is the pair [(resp, err)]
    of [http.Get], [http.Post] and [Client.Do]: Go gives a nil response
    with every error but a refused redirect.  [newRequestError] is the
    error of [http.NewRequest], for a method or URL it cannot parse. *)
Record Env : Type := {
  newRequestError : string -> string -> option error;
  roundTrip : Request -> option Response * option error
}.

Inductive Event : Type :=
| Sent (r : Request)
| BodyClosed
| Stdout (line : string).

(** A Go function call: the events it causes, in order, and its outcome. *)
Definition IO (A : Type) : Type := Env -> list Event * Outcome A.

Definition ret {A : Type} (a : A) : IO A := fun _ => ([], Return a).

Definition panic {A : Type} (msg : string) : IO A := fun _ => ([], Panic msg).

Definition bind {A B : Type} (m : IO A) (f : A -> IO B) : IO B := fun env =>
  match m env with
  | (t, Return a) => let (t', o) := f a env in ((t ++ t')%list, o)
  | (t, Panic msg) => (t, Panic msg)
  end.

Notation "x <- m ;; k" := (bind m (fun x => k))
  (at level 61, m at next level, right associativity).
Notation "' pat <- m ;; k" := (bind m (fun x => match x with pat => k end))
  (at level 61, pat pattern, m at next level, right associativity).

(** [defer f()]: the call runs when the function leaves, by a return or by
    a panic. *)
Definition defer {A : Type} (ev : Event) (m : IO A) : IO A := fun env =>
  let (t, o) := m env in ((t ++ [ev])%list, o).

Definition send (r : Request) : IO (option Response * option error) :=
  fun env => ([Sent r], Return (roundTrip env r)).

Definition println (line : string) : IO unit :=
  fun _ => ([Stdout line], Return tt).

(** Reading through a pointer. *)
Definition deref {A : Type} (p : option A) : IO A :=
  match p with
  | Some a => ret a
  | None => panic nil_dereference
  end.

Definition events {A : Type} (r : list Event * Outcome A) : list Event := fst r.
Definition outcome {A : Type} (r : list Event * Outcome A) : Outcome A := snd r.

Definition MethodGet : string := "GET".
Definition MethodPost : string := "POST".
Definition MethodDelete : string := "DELETE".

(** The requests [http.Get], [http.Post] and [http.NewRequest] (with a nil
    body) build. *)
Definition GetRequest (url : string) : Request :=
  {| Method := MethodGet; URL := url; Header := []; Body := None |}.

Definition PostRequest (url contentType : string) (body : option string) : Request :=
  {| Method := MethodPost; URL := url;
     Header := [("Content-Type", contentType)]; Body := body |}.

Definition NewRequest (method url : string) : Request :=
  {| Method := method; URL := url; Header := []; Body := None |}.

Definition http_Get (url : string) : IO (option Response * option error) :=
  send (GetRequest url).

Definition http_Post (url contentType : string) (body : option string)
  : IO (option Response * option error) :=
  send (PostRequest url contentType body).

Definition http_NewRequest (method url : string) : IO (Request * option error) :=
  fun env => ([], Return (NewRequest method url, newRequestError env method url)).

Definition DefaultClient_Do (req : Request) : IO (option Response * option error) :=
  send req.

(** [json.NewDecoder(body).Decode(&s)] with [s] a non-nil pointer to a
    struct: the document is decoded onto the struct [s] points to, and a
    document that is [null] sets the pointer [s] itself to nil. *)
Definition Decode_ref {T : Type} (d : Dec T) (body : option json) (s : T)
  : option T * option error :=
  match body with
  | None => (Some s, Some "json: no value could be read")
  | Some JNull => (None, None)
  | Some j =>
      match d j s with
      | (s', Fine) => (Some s', None)
      | (s', Saved e) => (Some s', Some e)
      | (s', Abort e) => (Some s', Some e)
      end
  end.

(** [json.NewDecoder(body).Decode(s)], the pointer itself passed: a [null]
    document leaves the struct as it is. *)
Definition Decode_val {T : Type} (d : Dec T) (body : option json) (s : T)
  : T * option error :=
  match body with
  | None => (s, Some "json: no value could be read")
  | Some j =>
      match d j s with
      | (s', Fine) => (s', None)
      | (s', Saved e) => (s', Some e)
      | (s', Abort e) => (s', Some e)
      end
  end.

(* ------------------------------------------------------------------ *)
(** ** encoding/json: Marshal of the request struct *)

Definition dquote : ascii := "034"%char.
Definition backslash : ascii := "092"%char.

Definition hex_digit (n : nat) : ascii :=
  if Nat.ltb n 10 then ascii_of_nat (48 + n) else ascii_of_nat (87 + n).

(** One byte of a string inside a JSON string literal, as [Marshal] writes
    it (HTML escaping on).  Bytes from 128 up are copied: the model does
    not follow Go in replacing invalid UTF-8 and U+2028/U+2029. *)
Definition escape_byte (c : ascii) : string :=
  let n := nat_of_ascii c in
  if Ascii.eqb c dquote then String backslash (String dquote EmptyString)
  else if Ascii.eqb c backslash then String backslash (String backslash EmptyString)
  else if Nat.eqb n 10 then String backslash "n"
  else if Nat.eqb n 13 then String backslash "r"
  else if Nat.eqb n 9 then String backslash "t"
  else if (Nat.ltb n 32 || Nat.eqb n 60 || Nat.eqb n 62 || Nat.eqb n 38)%bool
  then String backslash
         ("u00" ++ String (hex_digit (Nat.div n 16))
                     (String (hex_digit (Nat.modulo n 16)) EmptyString))
  else String c EmptyString.

Fixpoint escape (s : string) : string :=
  match s with
  | EmptyString => EmptyString
  | String c rest => escape_byte c ++ escape rest
  end.

Definition quoted (s : string) : string :=
  String dquote (escape s ++ String dquote EmptyString).

Definition member (tag value : string) : string :=
  String dquote (tag ++ String dquote (":" ++ value)).

(* ------------------------------------------------------------------ *)
(** ** The settled client (the first program of the repository) *)

Definition HEARTBEAT_URL := "https://api.stockfighter.io/ob/api/heartbeat".
Definition VENUE_HEARTBEAT_URL := "https://api.stockfighter.io/ob/api/venues/%s/heartbeat".
Definition VENUE_STOCKS_URL := "https://api.stockfighter.io/ob/api/venues/%s/stocks".
Definition VENUE_ORDERBOOK_URL := "https://api.stockfighter.io/ob/api/venues/%s/stocks/%s".
Definition VENUE_QUOTE_URL := "https://api.stockfighter.io/ob/api/venues/%s/stocks/%s/quote".
Definition VENUE_ORDERS_URL := "https://api.stockfighter.io/ob/api/venues/%s/stocks/%s/orders".
Definition VENUE_ORDER_URL := "https://api.stockfighter.io/ob/api/venues/%s/stocks/%s/orders/%d".
Definition ACCT_EVERY_ORDERS_URL := "https://api.stockfighter.io/ob/api/venues/%s/accounts/%s/orders".
Definition ACCT_STOCK_ORDERS_URL := "https://api.stockfighter.io/ob/api/venues/%s/accounts/%s/stocks/%s/orders".

(** The shape a response is decoded into: [new(T)] and the decoder of [T]. *)
Class Shape (T : Type) : Type := {
  new : T;
  decoder : Dec T
}.
Arguments new T {_}.

(** Fields that Go promotes from embedded structs, read as in the source:
    [s.Ok], [s.Venue], [s.Symbol]. *)
Class OkField (T : Type) : Type := Ok : T -> bool.
Class VenueField (T : Type) : Type := Venue : T -> string.
Class SymbolField (T : Type) : Type := Symbol : T -> string.

Record HasOk : Type := { HasOk_Ok : bool }.

Record StatusResponse : Type := {
  StatusResponse_HasOk : HasOk;
  StatusResponse_Error : string
}.

Record VenueStatusResponse : Type := {
  VenueStatusResponse_HasOk : HasOk;
  VenueStatusResponse_Venue : string
}.

Record SymbolInfo : Type := {
  SymbolInfo_Name : string;
  SymbolInfo_Symbol : string
}.

Record VenueStocksResponse : Type := {
  VenueStocksResponse_HasOk : HasOk;
  VenueStocksResponse_Symbols : slice SymbolInfo
}.

Record Order : Type := {
  Order_Price : Z;
  Order_Quantity : Z
}.

Record OrderbookEntry : Type := {
  OrderbookEntry_Order : Order;
  OrderbookEntry_IsBuy : bool
}.

Record OrderRequest : Type := {
  OrderRequest_Account : string;
  OrderRequest_OrderType : string;
  OrderRequest_Direction : string;
  OrderRequest_Qty : Z;
  OrderRequest_Price : Z
}.

Record Client : Type := { apiKey : string }.

(** [json.Marshal(order)]: the fields in order under their tags; no value
    of this struct makes it fail. *)
Definition Marshal_OrderRequest (o : OrderRequest) : string * option error :=
  ("{" ++ member "account" (quoted (OrderRequest_Account o))
    ++ "," ++ member "orderType" (quoted (OrderRequest_OrderType o))
    ++ "," ++ member "direction" (quoted (OrderRequest_Direction o))
    ++ "," ++ member "qty" (itoa (OrderRequest_Qty o))
    ++ "," ++ member "price" (itoa (OrderRequest_Price o)) ++ "}",
   None).

Definition set_HasOk : Setter HasOk :=
  field "ok" dec_bool HasOk_Ok (fun b _ => {| HasOk_Ok := b |}).

Definition set_StatusResponse : Setter StatusResponse :=
  orelse
    (embedded set_HasOk StatusResponse_HasOk
       (fun h t => {| StatusResponse_HasOk := h;
                      StatusResponse_Error := StatusResponse_Error t |}))
    (field "error" dec_string StatusResponse_Error
       (fun e t => {| StatusResponse_HasOk := StatusResponse_HasOk t;
                      StatusResponse_Error := e |})).

Definition set_VenueStatusResponse : Setter VenueStatusResponse :=
  orelse
    (embedded set_HasOk VenueStatusResponse_HasOk
       (fun h t => {| VenueStatusResponse_HasOk := h;
                      VenueStatusResponse_Venue := VenueStatusResponse_Venue t |}))
    (field "venue" dec_string VenueStatusResponse_Venue
       (fun v t => {| VenueStatusResponse_HasOk := VenueStatusResponse_HasOk t;
                      VenueStatusResponse_Venue := v |})).

Definition set_SymbolInfo : Setter SymbolInfo :=
  orelse
    (field "name" dec_string SymbolInfo_Name
       (fun n t => {| SymbolInfo_Name := n; SymbolInfo_Symbol := SymbolInfo_Symbol t |}))
    (field "symbol" dec_string SymbolInfo_Symbol
       (fun y t => {| SymbolInfo_Name := SymbolInfo_Name t; SymbolInfo_Symbol := y |})).

Definition zero_HasOk : HasOk := {| HasOk_Ok := false |}.

Definition zero_SymbolInfo : SymbolInfo :=
  {| SymbolInfo_Name := EmptyString; SymbolInfo_Symbol := EmptyString |}.

Definition set_VenueStocksResponse : Setter VenueStocksResponse :=
  orelse
    (embedded set_HasOk VenueStocksResponse_HasOk
       (fun h t => {| VenueStocksResponse_HasOk := h;
                      VenueStocksResponse_Symbols := VenueStocksResponse_Symbols t |}))
    (field "symbols"
       (dec_slice zero_SymbolInfo (dec_struct "SymbolInfo" set_SymbolInfo) "[]SymbolInfo")
       VenueStocksResponse_Symbols
       (fun l t => {| VenueStocksResponse_HasOk := VenueStocksResponse_HasOk t;
                      VenueStocksResponse_Symbols := l |})).

Definition set_Order : Setter Order :=
  orelse
    (field "price" dec_uint64 Order_Price
       (fun p t => {| Order_Price := p; Order_Quantity := Order_Quantity t |}))
    (field "qty" dec_uint64 Order_Quantity
       (fun q t => {| Order_Price := Order_Price t; Order_Quantity := q |})).

Definition set_OrderbookEntry : Setter OrderbookEntry :=
  orelse
    (embedded set_Order OrderbookEntry_Order
       (fun o t => {| OrderbookEntry_Order := o;
                      OrderbookEntry_IsBuy := OrderbookEntry_IsBuy t |}))
    (field "isBuy" dec_bool OrderbookEntry_IsBuy
       (fun b t => {| OrderbookEntry_Order := OrderbookEntry_Order t;
                      OrderbookEntry_IsBuy := b |})).

Definition zero_OrderbookEntry : OrderbookEntry :=
  {| OrderbookEntry_Order := {| Order_Price := 0; Order_Quantity := 0 |};
     OrderbookEntry_IsBuy := false |}.

Definition with_OrderRequest (a ty d : string) (q p : Z) : OrderRequest :=
  {| OrderRequest_Account := a; OrderRequest_OrderType := ty;
     OrderRequest_Direction := d; OrderRequest_Qty := q; OrderRequest_Price := p |}.

Definition set_OrderRequest : Setter OrderRequest :=
  orelse (field "account" dec_string OrderRequest_Account
    (fun x t => with_OrderRequest x (OrderRequest_OrderType t) (OrderRequest_Direction t)
                  (OrderRequest_Qty t) (OrderRequest_Price t)))
  (orelse (field "orderType" dec_string OrderRequest_OrderType
    (fun x t => with_OrderRequest (OrderRequest_Account t) x (OrderRequest_Direction t)
                  (OrderRequest_Qty t) (OrderRequest_Price t)))
  (orelse (field "direction" dec_string OrderRequest_Direction
    (fun x t => with_OrderRequest (OrderRequest_Account t) (OrderRequest_OrderType t) x
                  (OrderRequest_Qty t) (OrderRequest_Price t)))
  (orelse (field "qty" dec_int OrderRequest_Qty
    (fun x t => with_OrderRequest (OrderRequest_Account t) (OrderRequest_OrderType t)
                  (OrderRequest_Direction t) x (OrderRequest_Price t)))
  (field "price" dec_int OrderRequest_Price
    (fun x t => with_OrderRequest (OrderRequest_Account t) (OrderRequest_OrderType t)
                  (OrderRequest_Direction t) (OrderRequest_Qty t) x))))).

Definition zero_OrderRequest : OrderRequest :=
  with_OrderRequest EmptyString EmptyString EmptyString 0 0.

Section Settled.
Context `{TL : TimeLib}.

Record OrderbookResponse : Type := {
  OrderbookResponse_VenueStatusResponse : VenueStatusResponse;
  OrderbookResponse_Symbol : string;
  OrderbookResponse_Bids : slice OrderbookEntry;
  OrderbookResponse_Asks : slice OrderbookEntry;
  OrderbookResponse_Timestamp : Time
}.

Record Fill : Type := {
  Fill_Qty : Z;
  Fill_Price : Z;
  Fill_Timestamp : Time
}.

Record OrderResponse : Type := {
  OrderResponse_VenueStatusResponse : VenueStatusResponse;
  OrderResponse_OrderRequest : OrderRequest;
  OrderResponse_OriginalQty : Z;
  OrderResponse_Id : Z;
  OrderResponse_Timestamp : Time;
  OrderResponse_Fills : slice Fill;
  OrderResponse_TotalFilled : Z;
  OrderResponse_Open : bool
}.

Record OrdersStatusResponse : Type := {
  OrdersStatusResponse_VenueStatusResponse : VenueStatusResponse;
  OrdersStatusResponse_Orders : slice OrderResponse
}.

Record QuoteResponse : Type := {
  QuoteResponse_VenueStatusResponse : VenueStatusResponse;
  QuoteResponse_Symbol : string;
  QuoteResponse_Bid : Z;
  QuoteResponse_BidSize : Z;
  QuoteResponse_BidDepth : Z;
  QuoteResponse_AskSize : Z;
  QuoteResponse_AskDepth : Z;
  QuoteResponse_Last : Z;
  QuoteResponse_LastSize : Z;
  QuoteResponse_LastTrade : Time;
  QuoteResponse_QuoteTime : Time
}.

Definition zero_VenueStatusResponse : VenueStatusResponse :=
  {| VenueStatusResponse_HasOk := zero_HasOk;
     VenueStatusResponse_Venue := EmptyString |}.

Definition zero_Fill : Fill :=
  {| Fill_Qty := 0; Fill_Price := 0; Fill_Timestamp := Time_zero |}.

Definition zero_OrderResponse : OrderResponse :=
  {| OrderResponse_VenueStatusResponse := zero_VenueStatusResponse;
     OrderResponse_OrderRequest := zero_OrderRequest;
     OrderResponse_OriginalQty := 0;
     OrderResponse_Id := 0;
     OrderResponse_Timestamp := Time_zero;
     OrderResponse_Fills := None;
     OrderResponse_TotalFilled := 0;
     OrderResponse_Open := false |}.

Definition set_OrderbookResponse : Setter OrderbookResponse :=
  orelse (embedded set_VenueStatusResponse OrderbookResponse_VenueStatusResponse
    (fun x '(Build_OrderbookResponse v y b a t) => Build_OrderbookResponse x y b a t))
  (orelse (field "symbol" dec_string OrderbookResponse_Symbol
    (fun x '(Build_OrderbookResponse v y b a t) => Build_OrderbookResponse v x b a t))
  (orelse (field "bids"
     (dec_slice zero_OrderbookEntry (dec_struct "OrderbookEntry" set_OrderbookEntry)
        "[]OrderbookEntry")
     OrderbookResponse_Bids
    (fun x '(Build_OrderbookResponse v y b a t) => Build_OrderbookResponse v y x a t))
  (orelse (field "asks"
     (dec_slice zero_OrderbookEntry (dec_struct "OrderbookEntry" set_OrderbookEntry)
        "[]OrderbookEntry")
     OrderbookResponse_Asks
    (fun x '(Build_OrderbookResponse v y b a t) => Build_OrderbookResponse v y b x t))
  (field "ts" dec_time OrderbookResponse_Timestamp
    (fun x '(Build_OrderbookResponse v y b a t) => Build_OrderbookResponse v y b a x))))).

Definition set_Fill : Setter Fill :=
  orelse (field "qty" dec_int Fill_Qty
    (fun x '(Build_Fill q p t) => Build_Fill x p t))
  (orelse (field "price" dec_int Fill_Price
    (fun x '(Build_Fill q p t) => Build_Fill q x t))
  (field "ts" dec_time Fill_Timestamp
    (fun x '(Build_Fill q p t) => Build_Fill q p x))).

Definition set_OrderResponse : Setter OrderResponse :=
  orelse (embedded set_VenueStatusResponse OrderResponse_VenueStatusResponse
    (fun x '(Build_OrderResponse v r oq i t f tf o) => Build_OrderResponse x r oq i t f tf o))
  (orelse (embedded set_OrderRequest OrderResponse_OrderRequest
    (fun x '(Build_OrderResponse v r oq i t f tf o) => Build_OrderResponse v x oq i t f tf o))
  (orelse (field "originalQty" dec_int OrderResponse_OriginalQty
    (fun x '(Build_OrderResponse v r oq i t f tf o) => Build_OrderResponse v r x i t f tf o))
  (orelse (field "id" dec_int OrderResponse_Id
    (fun x '(Build_OrderResponse v r oq i t f tf o) => Build_OrderResponse v r oq x t f tf o))
  (orelse (field "ts" dec_time OrderResponse_Timestamp
    (fun x '(Build_OrderResponse v r oq i t f tf o) => Build_OrderResponse v r oq i x f tf o))
  (orelse (field "fills"
     (dec_slice zero_Fill (dec_struct "Fill" set_Fill) "[]Fill") OrderResponse_Fills
    (fun x '(Build_OrderResponse v r oq i t f tf o) => Build_OrderResponse v r oq i t x tf o))
  (orelse (field "totalFilled" dec_int OrderResponse_TotalFilled
    (fun x '(Build_OrderResponse v r oq i t f tf o) => Build_OrderResponse v r oq i t f x o))
  (field "open" dec_bool OrderResponse_Open
    (fun x '(Build_OrderResponse v r oq i t f tf o) => Build_OrderResponse v r oq i t f tf x)))))))).

Definition set_OrdersStatusResponse : Setter OrdersStatusResponse :=
  orelse (embedded set_VenueStatusResponse OrdersStatusResponse_VenueStatusResponse
    (fun x '(Build_OrdersStatusResponse v l) => Build_OrdersStatusResponse x l))
  (field "orders"
     (dec_slice zero_OrderResponse (dec_struct "OrderResponse" set_OrderResponse)
        "[]OrderResponse")
     OrdersStatusResponse_Orders
    (fun x '(Build_OrdersStatusResponse v l) => Build_OrdersStatusResponse v x)).

Definition set_QuoteResponse : Setter QuoteResponse :=
  orelse (embedded set_VenueStatusResponse QuoteResponse_VenueStatusResponse
    (fun x '(Build_QuoteResponse v y b bs bd zs zd l ls lt qt) =>
       Build_QuoteResponse x y b bs bd zs zd l ls lt qt))
  (orelse (field "symbol" dec_string QuoteResponse_Symbol
    (fun x '(Build_QuoteResponse v y b bs bd zs zd l ls lt qt) =>
       Build_QuoteResponse v x b bs bd zs zd l ls lt qt))
  (orelse (field "bid" dec_int QuoteResponse_Bid
    (fun x '(Build_QuoteResponse v y b bs bd zs zd l ls lt qt) =>
       Build_QuoteResponse v y x bs bd zs zd l ls lt qt))
  (orelse (field "bidSize" dec_int QuoteResponse_BidSize
    (fun x '(Build_QuoteResponse v y b bs bd zs zd l ls lt qt) =>
       Build_QuoteResponse v y b x bd zs zd l ls lt qt))
  (orelse (field "bidDepth" dec_int QuoteResponse_BidDepth
    (fun x '(Build_QuoteResponse v y b bs bd zs zd l ls lt qt) =>
       Build_QuoteResponse v y b bs x zs zd l ls lt qt))
  (orelse (field "askSize" dec_int QuoteResponse_AskSize
    (fun x '(Build_QuoteResponse v y b bs bd zs zd l ls lt qt) =>
       Build_QuoteResponse v y b bs bd x zd l ls lt qt))
  (orelse (field "askDepth" dec_int QuoteResponse_AskDepth
    (fun x '(Build_QuoteResponse v y b bs bd zs zd l ls lt qt) =>
       Build_QuoteResponse v y b bs bd zs x l ls lt qt))
  (orelse (field "last" dec_int QuoteResponse_Last
    (fun x '(Build_QuoteResponse v y b bs bd zs zd l ls lt qt) =>
       Build_QuoteResponse v y b bs bd zs zd x ls lt qt))
  (orelse (field "lastSize" dec_int QuoteResponse_LastSize
    (fun x '(Build_QuoteResponse v y b bs bd zs zd l ls lt qt) =>
       Build_QuoteResponse v y b bs bd zs zd l x lt qt))
  (orelse (field "lastTrade" dec_time QuoteResponse_LastTrade
    (fun x '(Build_QuoteResponse v y b bs bd zs zd l ls lt qt) =>
       Build_QuoteResponse v y b bs bd zs zd l ls x qt))
  (field "quoteTime" dec_time QuoteResponse_QuoteTime
    (fun x '(Build_QuoteResponse v y b bs bd zs zd l ls lt qt) =>
       Build_QuoteResponse v y b bs bd zs zd l ls lt x))))))))))).

Global Instance Shape_StatusResponse : Shape StatusResponse := {
  new := {| StatusResponse_HasOk := zero_HasOk; StatusResponse_Error := EmptyString |};
  decoder := dec_struct "StatusResponse" set_StatusResponse
}.

Global Instance Shape_VenueStatusResponse : Shape VenueStatusResponse := {
  new := zero_VenueStatusResponse;
  decoder := dec_struct "VenueStatusResponse" set_VenueStatusResponse
}.

Global Instance Shape_VenueStocksResponse : Shape VenueStocksResponse := {
  new := {| VenueStocksResponse_HasOk := zero_HasOk;
            VenueStocksResponse_Symbols := None |};
  decoder := dec_struct "VenueStocksResponse" set_VenueStocksResponse
}.

Global Instance Shape_OrderbookResponse : Shape OrderbookResponse := {
  new := {| OrderbookResponse_VenueStatusResponse := zero_VenueStatusResponse;
            OrderbookResponse_Symbol := EmptyString;
            OrderbookResponse_Bids := None;
            OrderbookResponse_Asks := None;
            OrderbookResponse_Timestamp := Time_zero |};
  decoder := dec_struct "OrderbookResponse" set_OrderbookResponse
}.

Global Instance Shape_OrderResponse : Shape OrderResponse := {
  new := zero_OrderResponse;
  decoder := dec_struct "OrderResponse" set_OrderResponse
}.

Global Instance Shape_OrdersStatusResponse : Shape OrdersStatusResponse := {
  new := {| OrdersStatusResponse_VenueStatusResponse := zero_VenueStatusResponse;
            OrdersStatusResponse_Orders := None |};
  decoder := dec_struct "OrdersStatusResponse" set_OrdersStatusResponse
}.

Global Instance Shape_QuoteResponse : Shape QuoteResponse := {
  new := {| QuoteResponse_VenueStatusResponse := zero_VenueStatusResponse;
            QuoteResponse_Symbol := EmptyString;
            QuoteResponse_Bid := 0; QuoteResponse_BidSize := 0;
            QuoteResponse_BidDepth := 0; QuoteResponse_AskSize := 0;
            QuoteResponse_AskDepth := 0; QuoteResponse_Last := 0;
            QuoteResponse_LastSize := 0;
            QuoteResponse_LastTrade := Time_zero;
            QuoteResponse_QuoteTime := Time_zero |};
  decoder := dec_struct "QuoteResponse" set_QuoteResponse
}.

Global Instance Ok_HasOk : OkField HasOk := HasOk_Ok.
Global Instance Ok_StatusResponse : OkField StatusResponse :=
  fun s => Ok (StatusResponse_HasOk s).
Global Instance Ok_VenueStatusResponse : OkField VenueStatusResponse :=
  fun s => Ok (VenueStatusResponse_HasOk s).
Global Instance Ok_VenueStocksResponse : OkField VenueStocksResponse :=
  fun s => Ok (VenueStocksResponse_HasOk s).
Global Instance Ok_OrderbookResponse : OkField OrderbookResponse :=
  fun s => Ok (OrderbookResponse_VenueStatusResponse s).
Global Instance Ok_OrderResponse : OkField OrderResponse :=
  fun s => Ok (OrderResponse_VenueStatusResponse s).
Global Instance Ok_OrdersStatusResponse : OkField OrdersStatusResponse :=
  fun s => Ok (OrdersStatusResponse_VenueStatusResponse s).
Global Instance Ok_QuoteResponse : OkField QuoteResponse :=
  fun s => Ok (QuoteResponse_VenueStatusResponse s).

Global Instance Venue_VenueStatusResponse : VenueField VenueStatusResponse :=
  VenueStatusResponse_Venue.
Global Instance Venue_OrderbookResponse : VenueField OrderbookResponse :=
  fun s => Venue (OrderbookResponse_VenueStatusResponse s).
Global Instance Venue_OrderResponse : VenueField OrderResponse :=
  fun s => Venue (OrderResponse_VenueStatusResponse s).
Global Instance Venue_OrdersStatusResponse : VenueField OrdersStatusResponse :=
  fun s => Venue (OrdersStatusResponse_VenueStatusResponse s).
Global Instance Venue_QuoteResponse : VenueField QuoteResponse :=
  fun s => Venue (QuoteResponse_VenueStatusResponse s).

Global Instance Symbol_OrderbookResponse : SymbolField OrderbookResponse :=
  OrderbookResponse_Symbol.
Global Instance Symbol_QuoteResponse : SymbolField QuoteResponse :=
  QuoteResponse_Symbol.

(** [PerformRequest(url, method, body, &s)]: [js] is the struct the caller's
    pointer [s] points to.  The result is the pointer [s] after the call
    (nil when the decoder reset it) and the returned error. *)
Definition PerformRequest {T : Type} `{Shape T} (url method : string)
    (body : option string) (js : T) : IO (option T * option error) :=
  sw <- (if String.eqb method MethodGet then
           r <- http_Get url ;; ret (inr r)
         else if String.eqb method MethodPost then
           b <- deref body ;;
           r <- http_Post url b None ;; ret (inr r)
         else if String.eqb method MethodDelete then
           '(req, err) <- http_NewRequest method url ;;
           match err with
           | Some e => ret (inl e)
           | None =>
               '(resp, err) <- DefaultClient_Do req ;;
               match err with
               | Some e => ret (inl e)
               | None => ret (inr (resp, None))
               end
           end
         else ret (inr (None, None))) ;;
  match sw with
  | inl e => ret (Some js, Some e)
  | inr (resp, Some _) =>
      r <- deref resp ;;
      ret (Some js, Some (Sprintf "Request failed: %d" [AInt (StatusCode r)]))
  | inr (resp, None) =>
      r <- deref resp ;;
      defer BodyClosed (ret (Decode_ref decoder (RespBody r) js))
  end.

Definition Ping (c : Client) : IO bool :=
  let s := new StatusResponse in
  '(s, err) <- PerformRequest HEARTBEAT_URL MethodGet None s ;;
  match err with
  | Some _ => ret false
  | None =>
      v <- deref s ;;
      if negb (Bool.eqb (Ok v) true) then ret false
      else ret true
  end.

Definition PingVenue (c : Client) (venue : string) : IO bool :=
  let s := new VenueStatusResponse in
  '(s, err) <- PerformRequest (Sprintf VENUE_HEARTBEAT_URL [AStr venue])
                 MethodGet None s ;;
  match err with
  | Some _ => ret false
  | None =>
      v <- deref s ;;
      if negb (Bool.eqb (Ok v) true) then ret false
      else ret true
  end.

Definition FetchStocks (c : Client) (venue : string) : IO (slice SymbolInfo) :=
  let s := new VenueStocksResponse in
  '(s, err) <- PerformRequest (Sprintf VENUE_STOCKS_URL [AStr venue])
                 MethodGet None s ;;
  match err with
  | Some _ => ret None
  | None =>
      v <- deref s ;;
      if negb (Bool.eqb (Ok v) true) then ret None
      else ret (VenueStocksResponse_Symbols v)
  end.

Definition FetchOrder (c : Client) (venue stock : string) (id : Z)
  : IO (option OrderResponse) :=
  let s := new OrderResponse in
  '(s, err) <- PerformRequest (Sprintf VENUE_ORDER_URL [AStr venue; AStr stock; AInt id])
                 MethodGet None s ;;
  match err with
  | Some _ => ret None
  | None =>
      v <- deref s ;;
      if negb (Bool.eqb (Ok v) true) then ret None
      else if negb (String.eqb (Venue v) venue) then ret None
      else ret s
  end.

Definition FetchOrderbook (c : Client) (venue stock : string)
  : IO (option OrderbookResponse) :=
  let s := new OrderbookResponse in
  '(s, err) <- PerformRequest (Sprintf VENUE_ORDERBOOK_URL [AStr venue; AStr stock])
                 MethodGet None s ;;
  match err with
  | Some _ => ret None
  | None =>
      v <- deref s ;;
      if negb (Bool.eqb (Ok v) true) then ret None
      else if negb (String.eqb (Venue v) venue) then ret None
      else if negb (String.eqb (Symbol v) stock) then ret None
      else ret s
  end.

Definition FetchAcctOrders (c : Client) (venue account : string)
  : IO (slice OrderResponse) :=
  let s := new OrdersStatusResponse in
  '(s, err) <- PerformRequest (Sprintf ACCT_EVERY_ORDERS_URL [AStr account; AStr venue])
                 MethodGet None s ;;
  match err with
  | Some _ => ret None
  | None =>
      v <- deref s ;;
      if negb (Bool.eqb (Ok v) true) then ret None
      else if negb (String.eqb (Venue v) venue) then ret None
      else ret (OrdersStatusResponse_Orders v)
  end.

Definition FetchAcctStockOrders (c : Client) (venue stock account : string)
  : IO (slice OrderResponse) :=
  let s := new OrdersStatusResponse in
  '(s, err) <- PerformRequest
                 (Sprintf ACCT_STOCK_ORDERS_URL [AStr account; AStr venue; AStr stock])
                 MethodGet None s ;;
  match err with
  | Some _ => ret None
  | None =>
      v <- deref s ;;
      if negb (Bool.eqb (Ok v) true) then ret None
      else if negb (String.eqb (Venue v) venue) then ret None
      else ret (OrdersStatusResponse_Orders v)
  end.

Definition PlaceOrder (c : Client) (venue stock : string) (order : OrderRequest)
  : IO (option OrderResponse) :=
  let '(payload, err) := Marshal_OrderRequest order in
  match err with
  | Some _ => ret None
  | None =>
      let s := new OrderResponse in
      let js := payload in
      '(s, err) <- PerformRequest (Sprintf VENUE_ORDERS_URL [AStr venue; AStr stock])
                     MethodPost (Some js) s ;;
      ret None
  end.

Definition FetchQuote (c : Client) (venue stock : string)
  : IO (option QuoteResponse) :=
  let s := new QuoteResponse in
  '(s, err) <- PerformRequest (Sprintf VENUE_QUOTE_URL [AStr venue; AStr stock])
                 MethodGet None s ;;
  match err with
  | Some _ => ret None
  | None =>
      v <- deref s ;;
      if negb (Bool.eqb (Ok v) true) then ret None
      else ret s
  end.

Definition CancelOrder (c : Client) (venue stock : string) (id : Z) : IO bool :=
  let s := new OrderResponse in
  '(s, err) <- PerformRequest (Sprintf VENUE_ORDER_URL [AStr venue; AStr stock; AInt id])
                 MethodDelete None s ;;
  match err with
  | Some _ => ret false
  | None =>
      v <- deref s ;;
      if negb (Bool.eqb (Ok v) true) then ret false
      else if negb (Bool.eqb (OrderResponse_Open v) false) then ret false
      else ret true
  end.

End Settled.

(* ------------------------------------------------------------------ *)
(** ** The draft of main.go

    The draft calls [net/http] and the decoder in each method, and tests the
    status code of the response.  [HasOk], [StatusResponse], [Order],
    [OrderRequest] and [Client] are declared in it as in the settled client
    and are shared; its book snapshot is the struct it calls
    [OrderResponse]. *)

Module MainGo.

Definition VENUE_ORDERS_URL := "https://api.stockfighter.io/ob/api/venues/%s/stocks/%s".
Definition VENUE_POST_ORDER := "https://api.stockfighter.io/ob/api/venues/%s/stocks/%s/orders".

Definition Direction : Type := string.
Definition BUY : Direction := "buy".
Definition SELL : Direction := "sell".

Definition OrderType : Type := string.
Definition Limit : OrderType := "limit".
Definition Market : OrderType := "market".
Definition FOK : OrderType := "fill-or-kill".
Definition IOC : OrderType := "immediate-or-cancel".

Record Symbol : Type := {
  Symbol_Name : string;
  Symbol_Symbol : string
}.

Record StocksResponse : Type := {
  StocksResponse_HasOk : HasOk;
  StocksResponse_Symbols : slice Symbol
}.

Record OrderbookOrder : Type := {
  OrderbookOrder_Order : Order;
  OrderbookOrder_IsBuy : bool
}.

Definition zero_Symbol : Symbol :=
  {| Symbol_Name := EmptyString; Symbol_Symbol := EmptyString |}.

Definition zero_OrderbookOrder : OrderbookOrder :=
  {| OrderbookOrder_Order := {| Order_Price := 0; Order_Quantity := 0 |};
     OrderbookOrder_IsBuy := false |}.

Definition set_Symbol : Setter Symbol :=
  orelse (field "name" dec_string Symbol_Name
    (fun x '(Build_Symbol n y) => Build_Symbol x y))
  (field "symbol" dec_string Symbol_Symbol
    (fun x '(Build_Symbol n y) => Build_Symbol n x)).

Definition set_StocksResponse : Setter StocksResponse :=
  orelse (embedded set_HasOk StocksResponse_HasOk
    (fun x '(Build_StocksResponse h l) => Build_StocksResponse x l))
  (field "symbols" (dec_slice zero_Symbol (dec_struct "Symbol" set_Symbol) "[]Symbol")
     StocksResponse_Symbols
    (fun x '(Build_StocksResponse h l) => Build_StocksResponse h x)).

Definition set_OrderbookOrder : Setter OrderbookOrder :=
  orelse (embedded set_Order OrderbookOrder_Order
    (fun x '(Build_OrderbookOrder o b) => Build_OrderbookOrder x b))
  (field "isBuy" dec_bool OrderbookOrder_IsBuy
    (fun x '(Build_OrderbookOrder o b) => Build_OrderbookOrder o x)).

Global Instance Shape_StocksResponse : Shape StocksResponse := {
  new := {| StocksResponse_HasOk := zero_HasOk; StocksResponse_Symbols := None |};
  decoder := dec_struct "StocksResponse" set_StocksResponse
}.

Section Draft.
Context `{TL : TimeLib}.

Record OrderResponse : Type := {
  OrderResponse_HasOk : HasOk;
  OrderResponse_Symbol : Symbol;
  OrderResponse_Bids : slice OrderbookOrder;
  OrderResponse_Asks : slice OrderbookOrder;
  OrderResponse_Timestamp : Time
}.

Definition set_OrderResponse : Setter OrderResponse :=
  orelse (embedded set_HasOk OrderResponse_HasOk
    (fun x '(Build_OrderResponse h y b a t) => Build_OrderResponse x y b a t))
  (orelse (embedded set_Symbol OrderResponse_Symbol
    (fun x '(Build_OrderResponse h y b a t) => Build_OrderResponse h x b a t))
  (orelse (field "bids"
     (dec_slice zero_OrderbookOrder (dec_struct "OrderbookOrder" set_OrderbookOrder)
        "[]OrderbookOrder")
     OrderResponse_Bids
    (fun x '(Build_OrderResponse h y b a t) => Build_OrderResponse h y x a t))
  (orelse (field "asks"
     (dec_slice zero_OrderbookOrder (dec_struct "OrderbookOrder" set_OrderbookOrder)
        "[]OrderbookOrder")
     OrderResponse_Asks
    (fun x '(Build_OrderResponse h y b a t) => Build_OrderResponse h y b x t))
  (field "ts" dec_time OrderResponse_Timestamp
    (fun x '(Build_OrderResponse h y b a t) => Build_OrderResponse h y b a x))))).

Global Instance Shape_OrderResponse : Shape OrderResponse := {
  new := {| OrderResponse_HasOk := zero_HasOk;
            OrderResponse_Symbol := zero_Symbol;
            OrderResponse_Bids := None;
            OrderResponse_Asks := None;
            OrderResponse_Timestamp := Time_zero |};
  decoder := dec_struct "OrderResponse" set_OrderResponse
}.

Global Instance Ok_OrderResponse : OkField OrderResponse :=
  fun s => Ok (OrderResponse_HasOk s).

Definition Heartbeat (c : Client) : IO bool :=
  _ <- println "Welcome!" ;;
  '(resp, err) <- http_Get HEARTBEAT_URL ;;
  match err with
  | Some _ => ret false
  | None =>
      r <- deref resp ;;
      defer BodyClosed
        (if negb (StatusCode r =? 200) then ret false
         else
           let s := new StatusResponse in
           let '(s, err) := Decode_ref decoder (RespBody r) s in
           v <- deref s ;;
           if negb (Bool.eqb (Ok v) true) then ret false
           else ret true)
  end.

Definition VenueHeartbeat (c : Client) (venue : string) : IO bool :=
  '(resp, err) <- http_Get (Sprintf VENUE_HEARTBEAT_URL [AStr venue]) ;;
  match err with
  | Some _ => ret false
  | None =>
      r <- deref resp ;;
      defer BodyClosed
        (if negb (StatusCode r =? 200) then ret false
         else
           let s := new StatusResponse in
           let '(s, err) := Decode_ref decoder (RespBody r) s in
           v <- deref s ;;
           if negb (Bool.eqb (Ok v) true) then ret false
           else ret true)
  end.

Definition VenueStocks (c : Client) (venue : string) : IO (slice Symbol) :=
  '(resp, err) <- http_Get (Sprintf VENUE_STOCKS_URL [AStr venue]) ;;
  match err with
  | Some _ => ret None
  | None =>
      r <- deref resp ;;
      defer BodyClosed
        (if negb (StatusCode r =? 200) then ret None
         else
           let stocks := new StocksResponse in
           let '(stocks, err) := Decode_val decoder (RespBody r) stocks in
           match err with
           | Some _ => ret None
           | None => ret (StocksResponse_Symbols stocks)
           end)
  end.

Definition VenueOrders (c : Client) (venue stock : string)
  : IO (option OrderResponse) :=
  '(resp, err) <- http_Get (Sprintf VENUE_ORDERS_URL [AStr venue; AStr stock]) ;;
  match err with
  | Some _ => ret None
  | None =>
      r <- deref resp ;;
      defer BodyClosed
        (if negb (StatusCode r =? 200) then ret None
         else if negb (StatusCode r =? 200) then ret None
         else
           let orders := new OrderResponse in
           let '(orders, err) := Decode_val decoder (RespBody r) orders in
           ret (Some orders))
  end.

Definition PlaceOrder (c : Client) (venue stock account : string) (price qty : Z)
    (dir : Direction) (otype : OrderType) : IO unit :=
  let or := with_OrderRequest account otype dir qty price in
  let or := or in
  ret tt.

End Draft.
End MainGo.

(* ------------------------------------------------------------------ *)
(** ** Running the model *)

(** A time package that keeps a timestamp as its text, to run the model on
    concrete documents.  The general theorems hold for every [TimeLib]. *)
Definition TextTime : TimeLib := {|
  Time := string;
  Time_zero := EmptyString;
  Time_UnmarshalJSON := fun j cur =>
    match j with
    | JStr s => (s, None)
    | JNull => (cur, None)
    | _ => (EmptyString, Some "Time.UnmarshalJSON: input is not a JSON string")
    end
|}.

(** A server that answers every request with one response. *)
Definition answering (resp : Response) : Env := {|
  newRequestError := fun _ _ => None;
  roundTrip := fun _ => (Some resp, None)
|}.

(** A network on which every connection fails: Go returns a nil response
    and the error. *)
Definition unreachable : Env := {|
  newRequestError := fun _ _ => None;
  roundTrip := fun _ => (None, Some "dial tcp: connection refused")
|}.

Definition ok200 (doc : json) : Response :=
  {| StatusCode := 200; RespBody := Some doc |}.

(** The document of the cancellation examples: the success flag, the venue
    and the open flag. *)
Definition cancel_reply (venue : string) (open : bool) : json :=
  JObj [("ok", JBool true); ("venue", JStr venue); ("open", JBool open)].

(** A book snapshot with nothing but the echoed venue and symbol. *)
Definition book_reply (venue symbol : string) : json :=
  JObj [("ok", JBool true); ("venue", JStr venue); ("symbol", JStr symbol)].

Definition venue_reply (venue : string) : json :=
  JObj [("ok", JBool true); ("venue", JStr venue)].

Definition status_reply (ok : bool) (message : string) : json :=
  JObj [("ok", JBool ok); ("error", JStr message)].

Definition a_client : Client := {| apiKey := "0123456789abcdef" |}.

Definition ok_reply : json := JObj [("ok", JBool true)].

Definition an_order : OrderRequest := with_OrderRequest "ACC1" "limit" "buy" 10 100.

(** Every header of every request handed to the HTTP client is the content
    type: nothing in a request carries a credential. *)
Definition only_content_type (r : Request) : bool :=
  forallb (fun h => String.eqb (fst h) "Content-Type") (Header r).

Definition no_credentials (trace : list Event) : bool :=
  forallb (fun ev => match ev with
                     | Sent r => only_content_type r
                     | _ => true
                     end) trace.

(** The requests of a trace, in order, and the number of response bodies
    it closes. *)
Fixpoint requests_sent (trace : list Event) : list Request :=
  match trace with
  | [] => []
  | Sent r :: rest => r :: requests_sent rest
  | _ :: rest => requests_sent rest
  end.

Fixpoint bodies_closed (trace : list Event) : nat :=
  match trace with
  | [] => O
  | BodyClosed :: rest => S (bodies_closed rest)
  | _ :: rest => bodies_closed rest
  end.

(** A stock listing as the server writes it: one object per instrument,
    name first. *)
Definition symbol_entry (p : string * string) : json :=
  JObj [("name", JStr (fst p)); ("symbol", JStr (snd p))].

Definition stocks_reply (listing : list (string * string)) : json :=
  JObj [("ok", JBool true); ("symbols", JArr (map symbol_entry listing))].

(** The values of Go's [int] and [uint64]. *)
Definition is_int (n : Z) : Prop := - 2 ^ 63 <= n < 2 ^ 63.
Definition is_uint64 (n : Z) : Prop := 0 <= n < 2 ^ 64.

(** The HTTP client returned a response and no error. *)
Definition arrived (r : option Response * option error) : bool :=
  match r with
  | (Some _, None) => true
  | _ => false
  end.

(** The two replies under which a call through [PerformRequest] reads
    through a nil pointer: no response at all, or a response whose document
    is [null]. *)
Definition nil_response_or_null (r : option Response * option error) : Prop :=
  fst r = None \/
  exists resp : Response, r = (Some resp, None) /\ RespBody resp = Some JNull.

(** An environment in which [http.NewRequest] rejects every URL. *)
Definition unbuildable : Env := {|
  newRequestError := fun _ _ => Some "net/url: invalid control character in URL";
  roundTrip := fun _ => (None, Some "unreachable")
|}.

(** An account listing with no order. *)
Definition orders_reply (venue : string) : json :=
  JObj [("ok", JBool true); ("venue", JStr venue); ("orders", JArr [])].

Definition tea_listing : list (string * string) :=
  [("American Tea", "ATEA"); ("Foo Bar Industries", "FOOBAR")].

(* ------------------------------------------------------------------ *)
(** * Properties *)

Example Sprintf_order :
  Sprintf VENUE_ORDER_URL [AStr "TESTEX"; AStr "FOOBAR"; AInt 123]
  = "https://api.stockfighter.io/ob/api/venues/TESTEX/stocks/FOOBAR/orders/123".
Proof. reflexivity. Qed.

Example Sprintf_zero_and_negative :
  Sprintf "%d,%d" [AInt 0; AInt (-7)] = "0,-7".
Proof. reflexivity. Qed.

Example Sprintf_missing_operand :
  Sprintf "a/%s/b/%s" [AStr "x"] = "a/x/b/%!s(MISSING)".
Proof. reflexivity. Qed.

Section Pipeline.
Context {T : Type} `{ST : Shape T}.

(** What [PerformRequest] does with each of the three methods the client
    uses, by the pair the HTTP client returns. *)
Lemma PerformRequest_Get (url : string) (body : option string) (js : T) (env : Env) :
  PerformRequest url MethodGet body js env =
  match roundTrip env (GetRequest url) with
  | (Some r, None) =>
      ([Sent (GetRequest url); BodyClosed],
       Return (Decode_ref decoder (RespBody r) js))
  | (Some r, Some _) =>
      ([Sent (GetRequest url)],
       Return (Some js, Some (Sprintf "Request failed: %d" [AInt (StatusCode r)])))
  | (None, _) => ([Sent (GetRequest url)], Panic nil_dereference)
  end.
Proof.
  unfold PerformRequest, bind, http_Get, send; simpl.
  destruct (roundTrip env (GetRequest url)) as [[r|] [e|]]; reflexivity.
Qed.

Lemma PerformRequest_Post (url payload : string) (js : T) (env : Env) :
  PerformRequest url MethodPost (Some payload) js env =
  match roundTrip env (PostRequest url payload None) with
  | (Some r, None) =>
      ([Sent (PostRequest url payload None); BodyClosed],
       Return (Decode_ref decoder (RespBody r) js))
  | (Some r, Some _) =>
      ([Sent (PostRequest url payload None)],
       Return (Some js, Some (Sprintf "Request failed: %d" [AInt (StatusCode r)])))
  | (None, _) => ([Sent (PostRequest url payload None)], Panic nil_dereference)
  end.
Proof.
  unfold PerformRequest, bind, http_Post, send; simpl.
  destruct (roundTrip env (PostRequest url payload None)) as [[r|] [e|]]; reflexivity.
Qed.

Lemma PerformRequest_Delete (url : string) (body : option string) (js : T) (env : Env) :
  PerformRequest url MethodDelete body js env =
  match newRequestError env MethodDelete url with
  | Some e => ([], Return (Some js, Some e))
  | None =>
      match roundTrip env (NewRequest MethodDelete url) with
      | (_, Some e) => ([Sent (NewRequest MethodDelete url)], Return (Some js, Some e))
      | (Some r, None) =>
          ([Sent (NewRequest MethodDelete url); BodyClosed],
           Return (Decode_ref decoder (RespBody r) js))
      | (None, None) => ([Sent (NewRequest MethodDelete url)], Panic nil_dereference)
      end
  end.
Proof.
  unfold PerformRequest, bind, http_NewRequest, DefaultClient_Do, send; simpl.
  destruct (newRequestError env MethodDelete url) as [e|]; [reflexivity|].
  destruct (roundTrip env (NewRequest MethodDelete url)) as [[r|] [e|]]; reflexivity.
Qed.

End Pipeline.

Section Cancel.
Context `{TL : TimeLib}.

(** C4: [CancelOrder] returns true exactly when the delete call went
    through (the request was built and the client returned a response and no
    error), the response decoded without error, its success flag is true and
    its open flag is false.  Against a reply with ok true and open false it
    returns true; against the same reply with open true it returns false. *)
Theorem CancelOrder_true_iff (c : Client) (venue stock : string) (id : Z) (env : Env) :
  (outcome (CancelOrder c venue stock id env) = Return true <->
   exists (resp : Response) (s : OrderResponse),
     newRequestError env MethodDelete
       (Sprintf VENUE_ORDER_URL [AStr venue; AStr stock; AInt id]) = None /\
     roundTrip env
       (NewRequest MethodDelete
          (Sprintf VENUE_ORDER_URL [AStr venue; AStr stock; AInt id]))
     = (Some resp, None) /\
     Decode_ref decoder (RespBody resp) (new OrderResponse) = (Some s, None) /\
     Ok s = true /\
     OrderResponse_Open s = false)
  /\ outcome (CancelOrder c "TESTEX" "FOOBAR" 123
                (answering (ok200 (cancel_reply "TESTEX" false)))) = Return true
  /\ outcome (CancelOrder c "TESTEX" "FOOBAR" 123
                (answering (ok200 (cancel_reply "TESTEX" true)))) = Return false.
Proof.
  split; [|split; reflexivity].
  unfold CancelOrder, outcome, bind.
  rewrite PerformRequest_Delete.
  set (url := Sprintf VENUE_ORDER_URL [AStr venue; AStr stock; AInt id]).
  destruct (newRequestError env MethodDelete url) as [e|] eqn:HN.
  { simpl. split; [discriminate|]. intros (resp & s & H & _). discriminate. }
  destruct (roundTrip env (NewRequest MethodDelete url)) as [[r|] [e|]] eqn:HR;
    try (simpl; split; [discriminate | intros (resp & s & _ & H & _); discriminate]).
  destruct (Decode_ref decoder (RespBody r) (new OrderResponse)) as [[s|] [e|]] eqn:HD;
    try (simpl; split;
         [discriminate
         | intros (resp & s' & _ & H & D & _); inversion H; subst resp;
           pose proof (eq_trans (eq_sym D) HD) as E; discriminate E]).
  unfold deref, ret; cbn beta iota.
  destruct (Ok s) eqn:HO; destruct (OrderResponse_Open s) eqn:HP; simpl;
    (split;
     [ intros H; try discriminate; exists r, s; repeat split; assumption
     | intros (resp & s' & _ & H & D & O & P); inversion H; subst resp;
       pose proof (eq_trans (eq_sym D) HD) as E; inversion E; subst s';
       try congruence ]).
Qed.

(** C10: [CancelOrder] does not compare the echoed venue: with the delete
    call through, the response decoded, the success flag true and the open
    flag false, it returns true although the decoded venue is not the venue
    asked for. *)
Theorem CancelOrder_ignores_venue (c : Client) (venue stock : string) (id : Z)
    (env : Env) (resp : Response) (s : OrderResponse) :
  newRequestError env MethodDelete
    (Sprintf VENUE_ORDER_URL [AStr venue; AStr stock; AInt id]) = None ->
  roundTrip env
    (NewRequest MethodDelete (Sprintf VENUE_ORDER_URL [AStr venue; AStr stock; AInt id]))
  = (Some resp, None) ->
  Decode_ref decoder (RespBody resp) (new OrderResponse) = (Some s, None) ->
  Ok s = true ->
  OrderResponse_Open s = false ->
  Venue s <> venue ->
  outcome (CancelOrder c venue stock id env) = Return true.
Proof.
  intros HN HR HD HO HP _.
  unfold CancelOrder, outcome, bind.
  rewrite PerformRequest_Delete, HN, HR, HD.
  unfold deref, ret; cbn beta iota.
  rewrite HO, HP. reflexivity.
Qed.

End Cancel.

Section Orderbook.
Context `{TL : TimeLib}.

(** C5: a non-nil result of [FetchOrderbook] carries the symbol asked for,
    and a decoded response whose symbol is another one makes the call return
    nil. *)
Theorem FetchOrderbook_symbol_echo (c : Client) (venue stock : string) (env : Env) :
  (forall r : OrderbookResponse,
     outcome (FetchOrderbook c venue stock env) = Return (Some r) ->
     Symbol r = stock)
  /\
  (forall (resp : Response) (s : OrderbookResponse),
     roundTrip env (GetRequest (Sprintf VENUE_ORDERBOOK_URL [AStr venue; AStr stock]))
     = (Some resp, None) ->
     Decode_ref decoder (RespBody resp) (new OrderbookResponse) = (Some s, None) ->
     Symbol s <> stock ->
     outcome (FetchOrderbook c venue stock env) = Return None).
Proof.
  unfold FetchOrderbook, outcome, bind.
  rewrite PerformRequest_Get.
  set (url := Sprintf VENUE_ORDERBOOK_URL [AStr venue; AStr stock]).
  destruct (roundTrip env (GetRequest url)) as [[resp|] [e|]] eqn:HR;
    try (split; [intros r H; discriminate H | intros resp' s H; discriminate H]).
  destruct (Decode_ref decoder (RespBody resp) (new OrderbookResponse))
    as [[s|] [e|]] eqn:HD;
    try (split;
         [ intros r H; discriminate H
         | intros resp' s' H D; inversion H; subst resp';
           pose proof (eq_trans (eq_sym D) HD) as E; discriminate E ]).
  unfold deref, ret; cbn beta iota.
  destruct (Ok s) eqn:HO; cbn beta iota;
    [| split; [intros r H; discriminate H | reflexivity] ].
  destruct (String.eqb (Venue s) venue) eqn:HV; cbn beta iota;
    [| split; [intros r H; discriminate H | reflexivity] ].
  destruct (String.eqb (Symbol s) stock) eqn:HS; cbn beta iota.
  - apply String.eqb_eq in HS. split.
    + intros r H. inversion H. subst r. exact HS.
    + intros resp' s' H D N. inversion H; subst resp'.
      pose proof (eq_trans (eq_sym D) HD) as E. inversion E; subst s'.
      contradiction.
  - split; [intros r H; discriminate H | reflexivity].
Qed.

End Orderbook.

Section ApiKey.
Context `{TL : TimeLib}.

(** The events of a call that goes through [PerformRequest] with GET hold
    one request, which has no header. *)
Ltac crunch :=
  unfold events, bind, http_Get, send;
  try rewrite PerformRequest_Get;
  try rewrite PerformRequest_Post;
  try rewrite PerformRequest_Delete;
  repeat match goal with
         | |- context [newRequestError ?e ?m ?u] =>
             destruct (newRequestError e m u) as [?|]
         | |- context [roundTrip ?e ?r] =>
             destruct (roundTrip e r) as [[?|] [?|]]
         | |- context [Decode_ref ?d ?b ?z] =>
             destruct (Decode_ref d b z) as [[?|] [?|]]
         | |- context [Decode_val ?d ?b ?z] =>
             destruct (Decode_val d b z) as [? [?|]]
         | |- context [if ?b then _ else _] => destruct b
         | _ => progress (unfold deref, ret, defer, println; cbn beta iota)
         end;
  try reflexivity.

Lemma Ping_no_credentials (c : Client) (env : Env) :
  no_credentials (events (Ping c env)) = true.
Proof. unfold Ping. crunch. Qed.

Lemma PingVenue_no_credentials (c : Client) (venue : string) (env : Env) :
  no_credentials (events (PingVenue c venue env)) = true.
Proof. unfold PingVenue. crunch. Qed.

Lemma FetchStocks_no_credentials (c : Client) (venue : string) (env : Env) :
  no_credentials (events (FetchStocks c venue env)) = true.
Proof. unfold FetchStocks. crunch. Qed.

Lemma FetchOrderbook_no_credentials (c : Client) (venue stock : string) (env : Env) :
  no_credentials (events (FetchOrderbook c venue stock env)) = true.
Proof. unfold FetchOrderbook. crunch. Qed.

Lemma FetchQuote_no_credentials (c : Client) (venue stock : string) (env : Env) :
  no_credentials (events (FetchQuote c venue stock env)) = true.
Proof. unfold FetchQuote. crunch. Qed.

Lemma FetchOrder_no_credentials (c : Client) (venue stock : string) (id : Z) (env : Env) :
  no_credentials (events (FetchOrder c venue stock id env)) = true.
Proof. unfold FetchOrder. crunch. Qed.

Lemma FetchAcctOrders_no_credentials (c : Client) (venue account : string) (env : Env) :
  no_credentials (events (FetchAcctOrders c venue account env)) = true.
Proof. unfold FetchAcctOrders. crunch. Qed.

Lemma FetchAcctStockOrders_no_credentials (c : Client) (venue stock account : string)
    (env : Env) :
  no_credentials (events (FetchAcctStockOrders c venue stock account env)) = true.
Proof. unfold FetchAcctStockOrders. crunch. Qed.

Lemma PlaceOrder_no_credentials (c : Client) (venue stock : string) (order : OrderRequest)
    (env : Env) :
  no_credentials (events (PlaceOrder c venue stock order env)) = true.
Proof. unfold PlaceOrder, Marshal_OrderRequest. cbn beta iota. crunch. Qed.

Lemma CancelOrder_no_credentials (c : Client) (venue stock : string) (id : Z) (env : Env) :
  no_credentials (events (CancelOrder c venue stock id env)) = true.
Proof. unfold CancelOrder. crunch. Qed.

Lemma draft_no_credentials (c : Client) (venue stock : string) (env : Env) :
  no_credentials (events (MainGo.Heartbeat c env)) = true /\
  no_credentials (events (MainGo.VenueHeartbeat c venue env)) = true /\
  no_credentials (events (MainGo.VenueStocks c venue env)) = true /\
  no_credentials (events (MainGo.VenueOrders c venue stock env)) = true.
Proof.
  repeat split.
  - unfold MainGo.Heartbeat. crunch.
  - unfold MainGo.VenueHeartbeat. crunch.
  - unfold MainGo.VenueStocks. crunch.
  - unfold MainGo.VenueOrders. crunch.
Qed.

(** C9: the stored API key takes no part in any operation.  Two clients
    that differ in their key run each of the ten operations as one and the
    same computation: for every state of the network the same requests
    (URL, method, headers, body) in the same order and the same result.  No
    request the operations hand to the HTTP client has a header other than
    the content type, so none carries a credential. *)
Theorem apiKey_never_influences (c1 c2 : Client) :
  (Ping c1 = Ping c2
   /\ (forall venue, PingVenue c1 venue = PingVenue c2 venue)
   /\ (forall venue, FetchStocks c1 venue = FetchStocks c2 venue)
   /\ (forall venue stock, FetchOrderbook c1 venue stock = FetchOrderbook c2 venue stock)
   /\ (forall venue stock, FetchQuote c1 venue stock = FetchQuote c2 venue stock)
   /\ (forall venue stock id, FetchOrder c1 venue stock id = FetchOrder c2 venue stock id)
   /\ (forall venue account,
         FetchAcctOrders c1 venue account = FetchAcctOrders c2 venue account)
   /\ (forall venue stock account,
         FetchAcctStockOrders c1 venue stock account
         = FetchAcctStockOrders c2 venue stock account)
   /\ (forall venue stock order,
         PlaceOrder c1 venue stock order = PlaceOrder c2 venue stock order)
   /\ (forall venue stock id, CancelOrder c1 venue stock id = CancelOrder c2 venue stock id))
  /\
  (forall (env : Env) (venue stock account : string) (id : Z) (order : OrderRequest),
     no_credentials (events (Ping c1 env)) = true
     /\ no_credentials (events (PingVenue c1 venue env)) = true
     /\ no_credentials (events (FetchStocks c1 venue env)) = true
     /\ no_credentials (events (FetchOrderbook c1 venue stock env)) = true
     /\ no_credentials (events (FetchQuote c1 venue stock env)) = true
     /\ no_credentials (events (FetchOrder c1 venue stock id env)) = true
     /\ no_credentials (events (FetchAcctOrders c1 venue account env)) = true
     /\ no_credentials (events (FetchAcctStockOrders c1 venue stock account env)) = true
     /\ no_credentials (events (PlaceOrder c1 venue stock order env)) = true
     /\ no_credentials (events (CancelOrder c1 venue stock id env)) = true).
Proof.
  split.
  - repeat split; reflexivity.
  - intros env venue stock account id order.
    repeat split;
      auto using Ping_no_credentials, PingVenue_no_credentials,
        FetchStocks_no_credentials, FetchOrderbook_no_credentials,
        FetchQuote_no_credentials, FetchOrder_no_credentials,
        FetchAcctOrders_no_credentials, FetchAcctStockOrders_no_credentials,
        PlaceOrder_no_credentials, CancelOrder_no_credentials.
Qed.

End ApiKey.

(* ------------------------------------------------------------------ *)
(** ** What the settled client checks, and what it does not *)

Section Checks.
Context `{TL : TimeLib}.

Ltac through_get HR HD :=
  unfold outcome, bind; rewrite PerformRequest_Get, HR, HD;
  unfold deref, ret; cbn beta iota.

(** A connection that fails leaves [http.Get] with a nil response; the error
    branch of [PerformRequest] reads the status code through it. *)
Lemma Get_connection_error_panics {T : Type} `{Shape T} (url : string) (js : T)
    (env : Env) (e : error) :
  roundTrip env (GetRequest url) = (None, Some e) ->
  PerformRequest url MethodGet None js env = ([Sent (GetRequest url)], Panic nil_dereference).
Proof. intros HR. rewrite PerformRequest_Get, HR. reflexivity. Qed.

(** The delete branch returns the error of the client as it is. *)
Lemma CancelOrder_transport_error (c : Client) (venue stock : string) (id : Z)
    (env : Env) (resp : option Response) (e : error) :
  roundTrip env
    (NewRequest MethodDelete (Sprintf VENUE_ORDER_URL [AStr venue; AStr stock; AInt id]))
  = (resp, Some e) ->
  outcome (CancelOrder c venue stock id env) = Return false.
Proof.
  intros HR. unfold CancelOrder, outcome, bind. rewrite PerformRequest_Delete, HR.
  destruct (newRequestError env MethodDelete _); destruct resp; reflexivity.
Qed.

(** The success flag is tested by every method that returns decoded content. *)
Lemma Ping_flag_false (c : Client) (env : Env) (resp : Response) (s : StatusResponse) :
  roundTrip env (GetRequest HEARTBEAT_URL) = (Some resp, None) ->
  Decode_ref decoder (RespBody resp) (new StatusResponse) = (Some s, None) ->
  Ok s = false ->
  outcome (Ping c env) = Return false.
Proof. intros HR HD HO. unfold Ping. through_get HR HD. rewrite HO. reflexivity. Qed.

Lemma PingVenue_flag_false (c : Client) (venue : string) (env : Env) (resp : Response)
    (s : VenueStatusResponse) :
  roundTrip env (GetRequest (Sprintf VENUE_HEARTBEAT_URL [AStr venue])) = (Some resp, None) ->
  Decode_ref decoder (RespBody resp) (new VenueStatusResponse) = (Some s, None) ->
  Ok s = false ->
  outcome (PingVenue c venue env) = Return false.
Proof. intros HR HD HO. unfold PingVenue. through_get HR HD. rewrite HO. reflexivity. Qed.

Lemma FetchStocks_flag_false (c : Client) (venue : string) (env : Env) (resp : Response)
    (s : VenueStocksResponse) :
  roundTrip env (GetRequest (Sprintf VENUE_STOCKS_URL [AStr venue])) = (Some resp, None) ->
  Decode_ref decoder (RespBody resp) (new VenueStocksResponse) = (Some s, None) ->
  Ok s = false ->
  outcome (FetchStocks c venue env) = Return None.
Proof. intros HR HD HO. unfold FetchStocks. through_get HR HD. rewrite HO. reflexivity. Qed.

Lemma FetchQuote_flag_false (c : Client) (venue stock : string) (env : Env)
    (resp : Response) (s : QuoteResponse) :
  roundTrip env (GetRequest (Sprintf VENUE_QUOTE_URL [AStr venue; AStr stock]))
  = (Some resp, None) ->
  Decode_ref decoder (RespBody resp) (new QuoteResponse) = (Some s, None) ->
  Ok s = false ->
  outcome (FetchQuote c venue stock env) = Return None.
Proof. intros HR HD HO. unfold FetchQuote. through_get HR HD. rewrite HO. reflexivity. Qed.

Lemma FetchOrder_flag_false (c : Client) (venue stock : string) (id : Z) (env : Env)
    (resp : Response) (s : OrderResponse) :
  roundTrip env (GetRequest (Sprintf VENUE_ORDER_URL [AStr venue; AStr stock; AInt id]))
  = (Some resp, None) ->
  Decode_ref decoder (RespBody resp) (new OrderResponse) = (Some s, None) ->
  Ok s = false ->
  outcome (FetchOrder c venue stock id env) = Return None.
Proof. intros HR HD HO. unfold FetchOrder. through_get HR HD. rewrite HO. reflexivity. Qed.

Lemma FetchOrderbook_flag_false (c : Client) (venue stock : string) (env : Env)
    (resp : Response) (s : OrderbookResponse) :
  roundTrip env (GetRequest (Sprintf VENUE_ORDERBOOK_URL [AStr venue; AStr stock]))
  = (Some resp, None) ->
  Decode_ref decoder (RespBody resp) (new OrderbookResponse) = (Some s, None) ->
  Ok s = false ->
  outcome (FetchOrderbook c venue stock env) = Return None.
Proof. intros HR HD HO. unfold FetchOrderbook. through_get HR HD. rewrite HO. reflexivity. Qed.

Lemma FetchAcctOrders_flag_false (c : Client) (venue account : string) (env : Env)
    (resp : Response) (s : OrdersStatusResponse) :
  roundTrip env (GetRequest (Sprintf ACCT_EVERY_ORDERS_URL [AStr account; AStr venue]))
  = (Some resp, None) ->
  Decode_ref decoder (RespBody resp) (new OrdersStatusResponse) = (Some s, None) ->
  Ok s = false ->
  outcome (FetchAcctOrders c venue account env) = Return None.
Proof. intros HR HD HO. unfold FetchAcctOrders. through_get HR HD. rewrite HO. reflexivity. Qed.

Lemma FetchAcctStockOrders_flag_false (c : Client) (venue stock account : string)
    (env : Env) (resp : Response) (s : OrdersStatusResponse) :
  roundTrip env
    (GetRequest (Sprintf ACCT_STOCK_ORDERS_URL [AStr account; AStr venue; AStr stock]))
  = (Some resp, None) ->
  Decode_ref decoder (RespBody resp) (new OrdersStatusResponse) = (Some s, None) ->
  Ok s = false ->
  outcome (FetchAcctStockOrders c venue stock account env) = Return None.
Proof.
  intros HR HD HO. unfold FetchAcctStockOrders. through_get HR HD. rewrite HO. reflexivity.
Qed.

(** The echoed venue is compared by four of the six venue-scoped fetches. *)
Lemma FetchOrder_venue_echo (c : Client) (venue stock : string) (id : Z) (env : Env)
    (resp : Response) (s : OrderResponse) :
  roundTrip env (GetRequest (Sprintf VENUE_ORDER_URL [AStr venue; AStr stock; AInt id]))
  = (Some resp, None) ->
  Decode_ref decoder (RespBody resp) (new OrderResponse) = (Some s, None) ->
  Venue s <> venue ->
  outcome (FetchOrder c venue stock id env) = Return None.
Proof.
  intros HR HD HV. unfold FetchOrder. through_get HR HD.
  apply String.eqb_neq in HV. rewrite HV. destruct (Ok s); reflexivity.
Qed.

Lemma FetchOrderbook_venue_echo (c : Client) (venue stock : string) (env : Env)
    (resp : Response) (s : OrderbookResponse) :
  roundTrip env (GetRequest (Sprintf VENUE_ORDERBOOK_URL [AStr venue; AStr stock]))
  = (Some resp, None) ->
  Decode_ref decoder (RespBody resp) (new OrderbookResponse) = (Some s, None) ->
  Venue s <> venue ->
  outcome (FetchOrderbook c venue stock env) = Return None.
Proof.
  intros HR HD HV. unfold FetchOrderbook. through_get HR HD.
  apply String.eqb_neq in HV. rewrite HV. destruct (Ok s); reflexivity.
Qed.

Lemma FetchAcctOrders_venue_echo (c : Client) (venue account : string) (env : Env)
    (resp : Response) (s : OrdersStatusResponse) :
  roundTrip env (GetRequest (Sprintf ACCT_EVERY_ORDERS_URL [AStr account; AStr venue]))
  = (Some resp, None) ->
  Decode_ref decoder (RespBody resp) (new OrdersStatusResponse) = (Some s, None) ->
  Venue s <> venue ->
  outcome (FetchAcctOrders c venue account env) = Return None.
Proof.
  intros HR HD HV. unfold FetchAcctOrders. through_get HR HD.
  apply String.eqb_neq in HV. rewrite HV. destruct (Ok s); reflexivity.
Qed.

Lemma FetchAcctStockOrders_venue_echo (c : Client) (venue stock account : string)
    (env : Env) (resp : Response) (s : OrdersStatusResponse) :
  roundTrip env
    (GetRequest (Sprintf ACCT_STOCK_ORDERS_URL [AStr account; AStr venue; AStr stock]))
  = (Some resp, None) ->
  Decode_ref decoder (RespBody resp) (new OrdersStatusResponse) = (Some s, None) ->
  Venue s <> venue ->
  outcome (FetchAcctStockOrders c venue stock account env) = Return None.
Proof.
  intros HR HD HV. unfold FetchAcctStockOrders. through_get HR HD.
  apply String.eqb_neq in HV. rewrite HV. destruct (Ok s); reflexivity.
Qed.

(** [PingVenue] and [FetchQuote] go by the success flag alone. *)
Lemma PingVenue_flag_only (c : Client) (venue : string) (env : Env) (resp : Response)
    (s : VenueStatusResponse) :
  roundTrip env (GetRequest (Sprintf VENUE_HEARTBEAT_URL [AStr venue])) = (Some resp, None) ->
  Decode_ref decoder (RespBody resp) (new VenueStatusResponse) = (Some s, None) ->
  outcome (PingVenue c venue env) = Return (Ok s).
Proof.
  intros HR HD. unfold PingVenue. through_get HR HD. destruct (Ok s); reflexivity.
Qed.

Lemma FetchQuote_flag_only (c : Client) (venue stock : string) (env : Env)
    (resp : Response) (s : QuoteResponse) :
  roundTrip env (GetRequest (Sprintf VENUE_QUOTE_URL [AStr venue; AStr stock]))
  = (Some resp, None) ->
  Decode_ref decoder (RespBody resp) (new QuoteResponse) = (Some s, None) ->
  outcome (FetchQuote c venue stock env) = Return (if Ok s then Some s else None).
Proof.
  intros HR HD. unfold FetchQuote. through_get HR HD. destruct (Ok s); reflexivity.
Qed.

(** [PlaceOrder] has one return value. *)
Lemma PlaceOrder_never_returns_order (c : Client) (venue stock : string)
    (order : OrderRequest) (env : Env) (r : OrderResponse) :
  outcome (PlaceOrder c venue stock order env) <> Return (Some r).
Proof.
  unfold PlaceOrder, Marshal_OrderRequest, outcome, bind; cbn beta iota.
  rewrite PerformRequest_Post.
  destruct (roundTrip env _) as [[resp|] [e|]]; cbn; try discriminate.
  destruct (Decode_ref _ _ _) as [p e]; cbn; discriminate.
Qed.

(** The status code of a response takes no part in [PerformRequest]. *)
Lemma PerformRequest_Get_status_blind {T : Type} `{Shape T} (url : string) (js : T)
    (env : Env) (code : Z) (body : option json) :
  roundTrip env (GetRequest url) = (Some {| StatusCode := code; RespBody := body |}, None) ->
  outcome (PerformRequest url MethodGet None js env)
  = Return (Decode_ref decoder body js).
Proof. intros HR. rewrite PerformRequest_Get, HR. reflexivity. Qed.

(** The draft tests it. *)
Lemma Heartbeat_status_checked (c : Client) (env : Env) (resp : Response) :
  roundTrip env (GetRequest HEARTBEAT_URL) = (Some resp, None) ->
  StatusCode resp <> 200 ->
  outcome (MainGo.Heartbeat c env) = Return false.
Proof.
  intros HR HS. unfold MainGo.Heartbeat, outcome, bind, println, http_Get, send.
  rewrite HR. unfold deref, ret, defer; cbn beta iota.
  apply Z.eqb_neq in HS. rewrite HS. reflexivity.
Qed.

(** The URLs of the two account listings, as [Sprintf] fills them. *)
Lemma FetchAcctOrders_url (c : Client) (venue account : string) (env : Env) :
  hd_error (events (FetchAcctOrders c venue account env))
  = Some (Sent (GetRequest ("https://api.stockfighter.io/ob/api/venues/" ++ account
                            ++ "/accounts/" ++ venue ++ "/orders"))).
Proof.
  unfold FetchAcctOrders, events, bind. rewrite PerformRequest_Get.
  replace (Sprintf ACCT_EVERY_ORDERS_URL [AStr account; AStr venue])
    with ("https://api.stockfighter.io/ob/api/venues/" ++ account
          ++ "/accounts/" ++ venue ++ "/orders").
  2:{ reflexivity. }
  destruct (roundTrip env _) as [[resp|] [e|]]; cbn; try reflexivity;
    destruct (Decode_ref _ _ _) as [[s|] [e|]]; cbn; try reflexivity;
    repeat match goal with |- context [if ?b then _ else _] => destruct b end;
    reflexivity.
Qed.

Lemma FetchAcctStockOrders_url (c : Client) (venue stock account : string) (env : Env) :
  hd_error (events (FetchAcctStockOrders c venue stock account env))
  = Some (Sent (GetRequest ("https://api.stockfighter.io/ob/api/venues/" ++ account
                            ++ "/accounts/" ++ venue ++ "/stocks/" ++ stock
                            ++ "/orders"))).
Proof.
  unfold FetchAcctStockOrders, events, bind. rewrite PerformRequest_Get.
  replace (Sprintf ACCT_STOCK_ORDERS_URL [AStr account; AStr venue; AStr stock])
    with ("https://api.stockfighter.io/ob/api/venues/" ++ account
          ++ "/accounts/" ++ venue ++ "/stocks/" ++ stock ++ "/orders").
  2:{ reflexivity. }
  destruct (roundTrip env _) as [[resp|] [e|]]; cbn; try reflexivity;
    destruct (Decode_ref _ _ _) as [[s|] [e|]]; cbn; try reflexivity;
    repeat match goal with |- context [if ?b then _ else _] => destruct b end;
    reflexivity.
Qed.

End Checks.

(* ------------------------------------------------------------------ *)
(** ** The client on concrete replies *)

(** C1: on a network where the connection fails, the nine operations that
    go through GET or POST do not return: [PerformRequest] formats the
    status code of the nil response and the call panics.  [CancelOrder],
    whose branch returns the error as it is, returns false. *)
Theorem connection_error_outcomes :
  outcome (Ping a_client unreachable) = Panic nil_dereference
  /\ outcome (PingVenue a_client "TESTEX" unreachable) = Panic nil_dereference
  /\ outcome (FetchStocks a_client "TESTEX" unreachable) = Panic nil_dereference
  /\ outcome (FetchOrderbook (TL := TextTime) a_client "TESTEX" "FOOBAR" unreachable)
     = Panic nil_dereference
  /\ outcome (FetchQuote (TL := TextTime) a_client "TESTEX" "FOOBAR" unreachable)
     = Panic nil_dereference
  /\ outcome (FetchOrder (TL := TextTime) a_client "TESTEX" "FOOBAR" 123 unreachable)
     = Panic nil_dereference
  /\ outcome (FetchAcctOrders (TL := TextTime) a_client "TESTEX" "ACC1" unreachable)
     = Panic nil_dereference
  /\ outcome (FetchAcctStockOrders (TL := TextTime) a_client "TESTEX" "FOOBAR" "ACC1"
                unreachable)
     = Panic nil_dereference
  /\ outcome (PlaceOrder (TL := TextTime) a_client "TESTEX" "FOOBAR" an_order unreachable)
     = Panic nil_dereference
  /\ outcome (CancelOrder (TL := TextTime) a_client "TESTEX" "FOOBAR" 123 unreachable)
     = Return false.
Proof. repeat split; vm_compute; reflexivity. Qed.

(** C2: a reply that is fine but for its venue, which is not the one asked
    for, is accepted by [PingVenue] and by [FetchQuote]. *)
Theorem venue_mismatch_accepted :
  outcome (PingVenue a_client "TESTEX" (answering (ok200 (venue_reply "OTHER"))))
  = Return true
  /\ exists q : QuoteResponse,
       outcome (FetchQuote (TL := TextTime) a_client "TESTEX" "FOOBAR"
                  (answering (ok200 (venue_reply "OTHER"))))
       = Return (Some q)
       /\ Venue q = "OTHER".
Proof.
  split; [reflexivity|].
  eexists. split; [vm_compute; reflexivity | reflexivity].
Qed.

(** [Ping] against a reply whose success flag is false, as the example has it. *)
Example Ping_service_down :
  Ping a_client (answering (ok200 (status_reply false "down")))
  = ([Sent (GetRequest HEARTBEAT_URL); BodyClosed], Return false).
Proof. reflexivity. Qed.

(** C3: the draft's [VenueOrders] and [VenueStocks] return what they decoded
    from a reply whose success flag is false. *)
Theorem draft_returns_failed_reply :
  (exists r : MainGo.OrderResponse,
     outcome (MainGo.VenueOrders (TL := TextTime) a_client "TESTEX" "FOOBAR"
                (answering (ok200 (status_reply false "down"))))
     = Return (Some r)
     /\ Ok r = false)
  /\ outcome (MainGo.VenueStocks a_client "TESTEX"
                (answering (ok200 (JObj [("ok", JBool false);
                                         ("symbols", JArr [JObj [("symbol", JStr "ATEA")]])]))))
     = Return (Some [{| MainGo.Symbol_Name := EmptyString;
                        MainGo.Symbol_Symbol := "ATEA" |}]).
Proof.
  split; [|reflexivity].
  eexists. split; [vm_compute; reflexivity | reflexivity].
Qed.

(** C6: a response with status 500 and a body that says ok is a success for
    [Ping]: [PerformRequest] does not look at the status code. *)
Theorem status_code_ignored :
  outcome (Ping a_client (answering {| StatusCode := 500; RespBody := Some ok_reply |}))
  = Return true.
Proof. reflexivity. Qed.

(** C7: [PlaceOrder] serialises the order and posts, with the serialised
    order as the content type and no body, and returns nil whatever the
    reply. *)
Theorem PlaceOrder_posts_no_body_returns_nil :
  PlaceOrder (TL := TextTime) a_client "TESTEX" "FOOBAR" an_order
    (answering (ok200 (venue_reply "TESTEX")))
  = ([Sent {| Method := "POST";
              URL := "https://api.stockfighter.io/ob/api/venues/TESTEX/stocks/FOOBAR/orders";
              Header := [("Content-Type", fst (Marshal_OrderRequest an_order))];
              Body := None |};
      BodyClosed],
     Return None).
Proof. vm_compute. reflexivity. Qed.

(** C8: the two account listings put the account where the venue goes and
    the venue where the account goes. *)
Theorem account_listing_urls_swapped :
  hd_error (events (FetchAcctOrders (TL := TextTime) a_client "TESTEX" "ACC1"
                      (answering (ok200 (venue_reply "TESTEX")))))
  = Some (Sent (GetRequest
                  "https://api.stockfighter.io/ob/api/venues/ACC1/accounts/TESTEX/orders"))
  /\
  hd_error (events (FetchAcctStockOrders (TL := TextTime) a_client "TESTEX" "FOOBAR" "ACC1"
                      (answering (ok200 (venue_reply "TESTEX")))))
  = Some (Sent (GetRequest
                  "https://api.stockfighter.io/ob/api/venues/ACC1/accounts/TESTEX/stocks/FOOBAR/orders")).
Proof. split; vm_compute; reflexivity. Qed.

(** The example of the stock listing. *)
Example FetchStocks_one_symbol :
  outcome (FetchStocks a_client "TESTEX"
             (answering (ok200 (JObj [("ok", JBool true);
                                      ("symbols",
                                       JArr [JObj [("name", JStr "American Tea");
                                                   ("symbol", JStr "ATEA")]])]))))
  = Return (Some [{| SymbolInfo_Name := "American Tea"; SymbolInfo_Symbol := "ATEA" |}]).
Proof. reflexivity. Qed.

(** A reply that is the document [null] resets the caller's pointer, and
    the flag is then read through nil. *)
Example Ping_null_reply :
  outcome (Ping a_client (answering (ok200 JNull))) = Panic nil_dereference.
Proof. reflexivity. Qed.

Lemma CancelOrder_true_iff_witness :
  outcome (CancelOrder (TL := TextTime) a_client "TESTEX" "FOOBAR" 123
             (answering (ok200 (cancel_reply "TESTEX" false))))
  = Return true.
Proof.
  apply (proj2 (proj1 (@CancelOrder_true_iff TextTime a_client "TESTEX" "FOOBAR" 123
                         (answering (ok200 (cancel_reply "TESTEX" false)))))).
  eexists. eexists.
  split; [reflexivity|].
  split; [reflexivity|].
  split; [vm_compute; reflexivity|].
  split; reflexivity.
Defined.

Lemma CancelOrder_ignores_venue_witness :
  outcome (CancelOrder (TL := TextTime) a_client "TESTEX" "FOOBAR" 123
             (answering (ok200 (cancel_reply "OTHER" false))))
  = Return true.
Proof.
  eapply (@CancelOrder_ignores_venue TextTime a_client "TESTEX" "FOOBAR" 123
            (answering (ok200 (cancel_reply "OTHER" false)))).
  - reflexivity.
  - reflexivity.
  - vm_compute. reflexivity.
  - reflexivity.
  - reflexivity.
  - vm_compute. discriminate.
Defined.

Lemma FetchOrderbook_symbol_echo_witness :
  (exists r : OrderbookResponse,
     outcome (FetchOrderbook (TL := TextTime) a_client "TESTEX" "FOOBAR"
                (answering (ok200 (book_reply "TESTEX" "FOOBAR"))))
     = Return (Some r)
     /\ Symbol r = "FOOBAR")
  /\ outcome (FetchOrderbook (TL := TextTime) a_client "TESTEX" "FOOBAR"
                (answering (ok200 (book_reply "TESTEX" "BARFOO"))))
     = Return None.
Proof.
  split.
  - eexists. split.
    + vm_compute. reflexivity.
    + apply (proj1 (@FetchOrderbook_symbol_echo TextTime a_client "TESTEX" "FOOBAR"
                      (answering (ok200 (book_reply "TESTEX" "FOOBAR"))))).
      vm_compute. reflexivity.
  - eapply (proj2 (@FetchOrderbook_symbol_echo TextTime a_client "TESTEX" "FOOBAR"
                     (answering (ok200 (book_reply "TESTEX" "BARFOO"))))).
    + reflexivity.
    + vm_compute. reflexivity.
    + vm_compute. discriminate.
Defined.

(* ------------------------------------------------------------------ *)
(** ** What a result of the settled client guarantees *)

Section Results.
Context `{TL : TimeLib}.

(** After [PerformRequest] is rewritten and the reply taken apart, one side
    of an equivalence: either the outcome cannot be the one asked about, or
    the facts of the case are the witness. *)
Ltac same_reply HR' HD HD' :=
  inversion HR'; subst;
  let E := fresh "E" in
  pose proof (eq_trans (eq_sym HD') HD) as E; inversion E; subst; clear E.

(** [Ping] returns true exactly when a response arrived without error, its
    body decoded without error, and the decoded success flag is true. *)
Theorem Ping_true_iff (c : Client) (env : Env) :
  outcome (Ping c env) = Return true <->
  exists (resp : Response) (s : StatusResponse),
    roundTrip env (GetRequest HEARTBEAT_URL) = (Some resp, None) /\
    Decode_ref decoder (RespBody resp) (new StatusResponse) = (Some s, None) /\
    Ok s = true.
Proof.
  unfold Ping, outcome, bind. rewrite PerformRequest_Get.
  destruct (roundTrip env (GetRequest HEARTBEAT_URL)) as [[resp|] [e|]] eqn:HR;
    try (split; [intros H; discriminate H | intros (resp' & s' & H & _); discriminate H]).
  destruct (Decode_ref decoder (RespBody resp) (new StatusResponse))
    as [[s|] [e|]] eqn:HD;
    try (split; [intros H; discriminate H
                | intros (resp' & s' & HR' & HD' & _); same_reply HR' HD HD']).
  unfold deref, ret; cbn beta iota.
  destruct (Ok s) eqn:HO; cbn beta iota.
  - split; [intros _; exists resp, s; auto |reflexivity].
  - split; [intros H; discriminate H
           | intros (resp' & s' & HR' & HD' & HO'); same_reply HR' HD HD'; congruence].
Qed.

(** A case in which the method returns its failure value, against a right
    side that needs the reply to have passed every test. *)
Ltac refuted1 HD :=
  let H := fresh in let resp' := fresh in let HR' := fresh in
  let HD' := fresh in let Hrest := fresh in
  split;
  [ intros H; discriminate H
  | intros (resp' & HR' & HD' & Hrest); same_reply HR' HD HD';
    repeat match goal with K : _ /\ _ |- _ => destruct K end; congruence ].

Ltac refuted2 HD :=
  let H := fresh in let resp' := fresh in let s' := fresh in let HR' := fresh in
  let HD' := fresh in let Hrest := fresh in
  split;
  [ intros H; discriminate H
  | intros (resp' & s' & HR' & HD' & Hrest); same_reply HR' HD HD';
    repeat match goal with K : _ /\ _ |- _ => destruct K end; congruence ].

Ltac no_reply1 :=
  let H := fresh in let resp' := fresh in
  split; [intros H; discriminate H | intros (resp' & H & _); discriminate H].

Ltac no_reply2 :=
  let H := fresh in let resp' := fresh in let s' := fresh in
  split; [intros H; discriminate H | intros (resp' & s' & H & _); discriminate H].

(** [PingVenue] returns true exactly when a response arrived without error,
    decoded without error, and carries a true success flag. *)
Theorem PingVenue_true_iff (c : Client) (venue : string) (env : Env) :
  outcome (PingVenue c venue env) = Return true <->
  exists (resp : Response) (s : VenueStatusResponse),
    roundTrip env (GetRequest (Sprintf VENUE_HEARTBEAT_URL [AStr venue]))
    = (Some resp, None) /\
    Decode_ref decoder (RespBody resp) (new VenueStatusResponse) = (Some s, None) /\
    Ok s = true.
Proof.
  unfold PingVenue, outcome, bind. rewrite PerformRequest_Get.
  destruct (roundTrip env _) as [[resp|] [e|]] eqn:HR; try no_reply2.
  destruct (Decode_ref decoder (RespBody resp) (new VenueStatusResponse))
    as [[s|] [e|]] eqn:HD; try refuted2 HD.
  unfold deref, ret; cbn beta iota.
  destruct (Ok s) eqn:HO; cbn beta iota; [| refuted2 HD].
  split; [intros _; exists resp, s; auto | reflexivity].
Qed.

(** [FetchStocks] returns a non-nil list exactly when a response arrived
    without error, decoded without error with a true success flag, and the
    list is the decoded one. *)
Theorem FetchStocks_some_iff (c : Client) (venue : string) (env : Env)
    (l : list SymbolInfo) :
  outcome (FetchStocks c venue env) = Return (Some l) <->
  exists (resp : Response) (s : VenueStocksResponse),
    roundTrip env (GetRequest (Sprintf VENUE_STOCKS_URL [AStr venue]))
    = (Some resp, None) /\
    Decode_ref decoder (RespBody resp) (new VenueStocksResponse) = (Some s, None) /\
    Ok s = true /\
    VenueStocksResponse_Symbols s = Some l.
Proof.
  unfold FetchStocks, outcome, bind. rewrite PerformRequest_Get.
  destruct (roundTrip env _) as [[resp|] [e|]] eqn:HR; try no_reply2.
  destruct (Decode_ref decoder (RespBody resp) (new VenueStocksResponse))
    as [[s|] [e|]] eqn:HD; try refuted2 HD.
  unfold deref, ret; cbn beta iota.
  destruct (Ok s) eqn:HO; cbn beta iota; [| refuted2 HD].
  split.
  - intros H. inversion H as [HS]. exists resp, s. auto.
  - intros (resp' & s' & HR' & HD' & _ & HS). same_reply HR' HD HD'.
    cbn. now rewrite HS.
Qed.

(** [FetchOrder] returns a non-nil order exactly when a response arrived
    without error and decoded without error to that order, with a true
    success flag and the venue asked for. *)
Theorem FetchOrder_some_iff (c : Client) (venue stock : string) (id : Z) (env : Env)
    (r : OrderResponse) :
  outcome (FetchOrder c venue stock id env) = Return (Some r) <->
  exists resp : Response,
    roundTrip env (GetRequest (Sprintf VENUE_ORDER_URL [AStr venue; AStr stock; AInt id]))
    = (Some resp, None) /\
    Decode_ref decoder (RespBody resp) (new OrderResponse) = (Some r, None) /\
    Ok r = true /\
    Venue r = venue.
Proof.
  unfold FetchOrder, outcome, bind. rewrite PerformRequest_Get.
  destruct (roundTrip env _) as [[resp|] [e|]] eqn:HR; try no_reply1.
  destruct (Decode_ref decoder (RespBody resp) (new OrderResponse))
    as [[s|] [e|]] eqn:HD; try refuted1 HD.
  unfold deref, ret; cbn beta iota.
  destruct (Ok s) eqn:HO; cbn beta iota; [| refuted1 HD].
  destruct (String.eqb_spec (Venue s) venue) as [HV|HV]; cbn beta iota; [| refuted1 HD].
  split.
  - intros H. inversion H; subst. exists resp. auto.
  - intros (resp' & HR' & HD' & _). same_reply HR' HD HD'. reflexivity.
Qed.

(** [FetchOrderbook] returns a non-nil book exactly when a response arrived
    without error and decoded without error to that book, with a true
    success flag, the venue asked for and the symbol asked for. *)
Theorem FetchOrderbook_some_iff (c : Client) (venue stock : string) (env : Env)
    (r : OrderbookResponse) :
  outcome (FetchOrderbook c venue stock env) = Return (Some r) <->
  exists resp : Response,
    roundTrip env (GetRequest (Sprintf VENUE_ORDERBOOK_URL [AStr venue; AStr stock]))
    = (Some resp, None) /\
    Decode_ref decoder (RespBody resp) (new OrderbookResponse) = (Some r, None) /\
    Ok r = true /\
    Venue r = venue /\
    Symbol r = stock.
Proof.
  unfold FetchOrderbook, outcome, bind. rewrite PerformRequest_Get.
  destruct (roundTrip env _) as [[resp|] [e|]] eqn:HR; try no_reply1.
  destruct (Decode_ref decoder (RespBody resp) (new OrderbookResponse))
    as [[s|] [e|]] eqn:HD; try refuted1 HD.
  unfold deref, ret; cbn beta iota.
  destruct (Ok s) eqn:HO; cbn beta iota; [| refuted1 HD].
  destruct (String.eqb_spec (Venue s) venue) as [HV|HV]; cbn beta iota; [| refuted1 HD].
  destruct (String.eqb_spec (Symbol s) stock) as [HS|HS]; cbn beta iota; [| refuted1 HD].
  split.
  - intros H. inversion H; subst. exists resp. auto.
  - intros (resp' & HR' & HD' & _). same_reply HR' HD HD'. reflexivity.
Qed.

(** [FetchQuote] returns a non-nil quote exactly when a response arrived
    without error and decoded without error to that quote, with a true
    success flag; neither the venue nor the symbol of the quote is
    compared. *)
Theorem FetchQuote_some_iff (c : Client) (venue stock : string) (env : Env)
    (r : QuoteResponse) :
  outcome (FetchQuote c venue stock env) = Return (Some r) <->
  exists resp : Response,
    roundTrip env (GetRequest (Sprintf VENUE_QUOTE_URL [AStr venue; AStr stock]))
    = (Some resp, None) /\
    Decode_ref decoder (RespBody resp) (new QuoteResponse) = (Some r, None) /\
    Ok r = true.
Proof.
  unfold FetchQuote, outcome, bind. rewrite PerformRequest_Get.
  destruct (roundTrip env _) as [[resp|] [e|]] eqn:HR; try no_reply1.
  destruct (Decode_ref decoder (RespBody resp) (new QuoteResponse))
    as [[s|] [e|]] eqn:HD; try refuted1 HD.
  unfold deref, ret; cbn beta iota.
  destruct (Ok s) eqn:HO; cbn beta iota; [| refuted1 HD].
  split.
  - intros H. inversion H; subst. exists resp. auto.
  - intros (resp' & HR' & HD' & _). same_reply HR' HD HD'. reflexivity.
Qed.

(** [FetchAcctOrders] returns a non-nil list exactly when the response to
    the request it sends arrived without error, decoded without error with a
    true success flag and the venue asked for, and the list is the decoded
    one. *)
Theorem FetchAcctOrders_some_iff (c : Client) (venue account : string) (env : Env)
    (l : list OrderResponse) :
  outcome (FetchAcctOrders c venue account env) = Return (Some l) <->
  exists (resp : Response) (s : OrdersStatusResponse),
    roundTrip env (GetRequest (Sprintf ACCT_EVERY_ORDERS_URL [AStr account; AStr venue]))
    = (Some resp, None) /\
    Decode_ref decoder (RespBody resp) (new OrdersStatusResponse) = (Some s, None) /\
    Ok s = true /\
    Venue s = venue /\
    OrdersStatusResponse_Orders s = Some l.
Proof.
  unfold FetchAcctOrders, outcome, bind. rewrite PerformRequest_Get.
  destruct (roundTrip env _) as [[resp|] [e|]] eqn:HR; try no_reply2.
  destruct (Decode_ref decoder (RespBody resp) (new OrdersStatusResponse))
    as [[s|] [e|]] eqn:HD; try refuted2 HD.
  unfold deref, ret; cbn beta iota.
  destruct (Ok s) eqn:HO; cbn beta iota; [| refuted2 HD].
  destruct (String.eqb_spec (Venue s) venue) as [HV|HV]; cbn beta iota; [| refuted2 HD].
  split.
  - intros H. inversion H as [HS]. exists resp, s. auto.
  - intros (resp' & s' & HR' & HD' & _ & _ & HS). same_reply HR' HD HD'.
    cbn. now rewrite HS.
Qed.

(** [FetchAcctStockOrders], likewise. *)
Theorem FetchAcctStockOrders_some_iff (c : Client) (venue stock account : string)
    (env : Env) (l : list OrderResponse) :
  outcome (FetchAcctStockOrders c venue stock account env) = Return (Some l) <->
  exists (resp : Response) (s : OrdersStatusResponse),
    roundTrip env
      (GetRequest (Sprintf ACCT_STOCK_ORDERS_URL [AStr account; AStr venue; AStr stock]))
    = (Some resp, None) /\
    Decode_ref decoder (RespBody resp) (new OrdersStatusResponse) = (Some s, None) /\
    Ok s = true /\
    Venue s = venue /\
    OrdersStatusResponse_Orders s = Some l.
Proof.
  unfold FetchAcctStockOrders, outcome, bind. rewrite PerformRequest_Get.
  destruct (roundTrip env _) as [[resp|] [e|]] eqn:HR; try no_reply2.
  destruct (Decode_ref decoder (RespBody resp) (new OrdersStatusResponse))
    as [[s|] [e|]] eqn:HD; try refuted2 HD.
  unfold deref, ret; cbn beta iota.
  destruct (Ok s) eqn:HO; cbn beta iota; [| refuted2 HD].
  destruct (String.eqb_spec (Venue s) venue) as [HV|HV]; cbn beta iota; [| refuted2 HD].
  split.
  - intros H. inversion H as [HS]. exists resp, s. auto.
  - intros (resp' & s' & HR' & HD' & _ & _ & HS). same_reply HR' HD HD'.
    cbn. now rewrite HS.
Qed.

End Results.

(* ------------------------------------------------------------------ *)
(** ** Requests, panics and the response body *)

Section Traces.
Context `{TL : TimeLib}.

(** [PerformRequest] has no case for a method other than GET, POST and
    DELETE, and reads the POST body through its pointer: with another method,
    or with POST and a nil body, it sends nothing and panics. *)
Theorem PerformRequest_sends_nothing {T : Type} `{Shape T} (url method : string)
    (body : option string) (js : T) (env : Env) :
  (method <> MethodGet -> method <> MethodPost -> method <> MethodDelete ->
   PerformRequest url method body js env = ([], Panic nil_dereference))
  /\ PerformRequest url MethodPost None js env = ([], Panic nil_dereference).
Proof.
  split; [|reflexivity].
  intros HG HP HD. unfold PerformRequest, bind.
  apply String.eqb_neq in HG, HP, HD. rewrite HG, HP, HD. reflexivity.
Qed.

Lemma Decode_ref_nil {T : Type} (d : Dec T) (body : option json) (js : T)
    (err : option error) :
  Decode_ref d body js = (None, err) -> body = Some JNull /\ err = None.
Proof.
  unfold Decode_ref.
  destruct body as [[]|]; try discriminate;
    try (destruct (d _ js) as [s' []]; discriminate).
  intros H. inversion H. auto.
Qed.

Lemma Decode_ref_not_nil {T : Type} (d : Dec T) (body : option json) (js s : T)
    (err : option error) :
  Decode_ref d body js = (Some s, err) -> body <> Some JNull.
Proof. intros H ->. discriminate H. Qed.

Ltac panics_iff :=
  unfold outcome, bind, nil_response_or_null; rewrite PerformRequest_Get;
  let resp := fresh "resp" in let e := fresh "e" in
  destruct (roundTrip _ _) as [[resp|] [e|]]; cbn [fst snd];
  [ split; [ intros [msg H]; discriminate H
           | intros [H | (r & H & _)]; discriminate H ]
  | let p := fresh "p" in let err := fresh "err" in let HD := fresh "HD" in
    destruct (Decode_ref _ (RespBody resp) _) as [p err] eqn:HD;
    destruct p as [s|];
    [ apply Decode_ref_not_nil in HD;
      split;
      [ destruct err; unfold deref, ret; cbn beta iota;
        repeat match goal with
               | |- context [if ?b then _ else _] => destruct b
               end;
        intros [msg H]; discriminate H
      | intros [H | (r & H & B)]; [discriminate H|];
        inversion H; subst; contradiction ]
    | apply Decode_ref_nil in HD; destruct HD as [HB ->];
      split;
      [ intros _; right; exists resp; split; [reflexivity | exact HB]
      | intros _; eexists; reflexivity ] ]
  | split; [intros _; left; reflexivity | intros _; eexists; reflexivity]
  | split; [intros _; left; reflexivity | intros _; eexists; reflexivity] ].

(** A fetch of the settled client panics exactly when the HTTP client
    returned no response (as it does with a connection error), or returned a
    response without error whose document is [null]. *)
Theorem fetch_panics_iff (c : Client) (venue stock account : string) (id : Z)
    (env : Env) :
  ((exists msg, outcome (Ping c env) = Panic msg) <->
   nil_response_or_null (roundTrip env (GetRequest HEARTBEAT_URL)))
  /\ ((exists msg, outcome (PingVenue c venue env) = Panic msg) <->
      nil_response_or_null
        (roundTrip env (GetRequest (Sprintf VENUE_HEARTBEAT_URL [AStr venue]))))
  /\ ((exists msg, outcome (FetchStocks c venue env) = Panic msg) <->
      nil_response_or_null
        (roundTrip env (GetRequest (Sprintf VENUE_STOCKS_URL [AStr venue]))))
  /\ ((exists msg, outcome (FetchOrderbook c venue stock env) = Panic msg) <->
      nil_response_or_null
        (roundTrip env
           (GetRequest (Sprintf VENUE_ORDERBOOK_URL [AStr venue; AStr stock]))))
  /\ ((exists msg, outcome (FetchQuote c venue stock env) = Panic msg) <->
      nil_response_or_null
        (roundTrip env (GetRequest (Sprintf VENUE_QUOTE_URL [AStr venue; AStr stock]))))
  /\ ((exists msg, outcome (FetchOrder c venue stock id env) = Panic msg) <->
      nil_response_or_null
        (roundTrip env
           (GetRequest (Sprintf VENUE_ORDER_URL [AStr venue; AStr stock; AInt id]))))
  /\ ((exists msg, outcome (FetchAcctOrders c venue account env) = Panic msg) <->
      nil_response_or_null
        (roundTrip env
           (GetRequest (Sprintf ACCT_EVERY_ORDERS_URL [AStr account; AStr venue]))))
  /\ ((exists msg, outcome (FetchAcctStockOrders c venue stock account env) = Panic msg) <->
      nil_response_or_null
        (roundTrip env
           (GetRequest
              (Sprintf ACCT_STOCK_ORDERS_URL [AStr account; AStr venue; AStr stock])))).
Proof.
  repeat match goal with |- _ /\ _ => split end.
  - unfold Ping. panics_iff.
  - unfold PingVenue. panics_iff.
  - unfold FetchStocks. panics_iff.
  - unfold FetchOrderbook. panics_iff.
  - unfold FetchQuote. panics_iff.
  - unfold FetchOrder. panics_iff.
  - unfold FetchAcctOrders. panics_iff.
  - unfold FetchAcctStockOrders. panics_iff.
Qed.

(** [CancelOrder] turns every error of the delete call into false without a
    panic: an error building the request, before anything is sent, and an
    error of the HTTP client, with or without a response. *)
Theorem CancelOrder_error_is_false (c : Client) (venue stock : string) (id : Z)
    (env : Env) :
  (forall e : error,
     newRequestError env MethodDelete
       (Sprintf VENUE_ORDER_URL [AStr venue; AStr stock; AInt id]) = Some e ->
     CancelOrder c venue stock id env = ([], Return false))
  /\
  (forall (resp : option Response) (e : error),
     newRequestError env MethodDelete
       (Sprintf VENUE_ORDER_URL [AStr venue; AStr stock; AInt id]) = None ->
     roundTrip env
       (NewRequest MethodDelete (Sprintf VENUE_ORDER_URL [AStr venue; AStr stock; AInt id]))
     = (resp, Some e) ->
     CancelOrder c venue stock id env
     = ([Sent (NewRequest MethodDelete
                 (Sprintf VENUE_ORDER_URL [AStr venue; AStr stock; AInt id]))],
        Return false)).
Proof.
  split.
  - intros e HN. unfold CancelOrder, bind. rewrite PerformRequest_Delete, HN. reflexivity.
  - intros resp e HN HR. unfold CancelOrder, bind.
    rewrite PerformRequest_Delete, HN, HR. destruct resp; reflexivity.
Qed.

Ltac walk :=
  unfold events, bind;
  try rewrite PerformRequest_Get;
  try rewrite PerformRequest_Post;
  try rewrite PerformRequest_Delete;
  repeat match goal with
         | |- context [newRequestError ?e ?m ?u] =>
             destruct (newRequestError e m u) as [?|]
         | |- context [roundTrip ?e ?r] =>
             destruct (roundTrip e r) as [[?|] [?|]]
         | |- context [Decode_ref ?d ?b ?z] =>
             destruct (Decode_ref d b z) as [[?|] [?|]]
         | |- context [if ?b then _ else _] => destruct b
         | _ => progress (unfold deref, ret, defer; cbn beta iota)
         end;
  cbn; auto.

(** Every operation of the settled client hands at most one request to the
    HTTP client, whatever the reply: nothing is sent twice.  The fetches and
    [PlaceOrder] send exactly one. *)
Theorem one_request_per_call (c : Client) (venue stock account : string) (id : Z)
    (order : OrderRequest) (env : Env) :
  length (requests_sent (events (Ping c env))) = 1%nat
  /\ length (requests_sent (events (PingVenue c venue env))) = 1%nat
  /\ length (requests_sent (events (FetchStocks c venue env))) = 1%nat
  /\ length (requests_sent (events (FetchOrderbook c venue stock env))) = 1%nat
  /\ length (requests_sent (events (FetchQuote c venue stock env))) = 1%nat
  /\ length (requests_sent (events (FetchOrder c venue stock id env))) = 1%nat
  /\ length (requests_sent (events (FetchAcctOrders c venue account env))) = 1%nat
  /\ length (requests_sent (events (FetchAcctStockOrders c venue stock account env)))
     = 1%nat
  /\ length (requests_sent (events (PlaceOrder c venue stock order env))) = 1%nat
  /\ (length (requests_sent (events (CancelOrder c venue stock id env))) <= 1)%nat.
Proof.
  repeat match goal with |- _ /\ _ => split end.
  - unfold Ping. walk.
  - unfold PingVenue. walk.
  - unfold FetchStocks. walk.
  - unfold FetchOrderbook. walk.
  - unfold FetchQuote. walk.
  - unfold FetchOrder. walk.
  - unfold FetchAcctOrders. walk.
  - unfold FetchAcctStockOrders. walk.
  - unfold PlaceOrder, Marshal_OrderRequest. cbn beta iota. walk.
  - unfold CancelOrder. walk.
Qed.

Lemma append_empty_r (s : string) : s ++ EmptyString = s.
Proof. induction s as [|a s IH]; [reflexivity | cbn; now rewrite IH]. Qed.

(** The one request of each fetch: a GET with no header and no body, to
    the heartbeat address or to the address with the venue, the stock and the
    order number in their places.  [CancelOrder] sends a DELETE to the address
    of the order, unless the request cannot be built. *)
Theorem fetch_requests (c : Client) (venue stock : string) (id : Z) (env : Env) :
  requests_sent (events (Ping c env))
  = [GetRequest "https://api.stockfighter.io/ob/api/heartbeat"]
  /\ requests_sent (events (PingVenue c venue env))
     = [GetRequest ("https://api.stockfighter.io/ob/api/venues/" ++ venue ++ "/heartbeat")]
  /\ requests_sent (events (FetchStocks c venue env))
     = [GetRequest ("https://api.stockfighter.io/ob/api/venues/" ++ venue ++ "/stocks")]
  /\ requests_sent (events (FetchOrderbook c venue stock env))
     = [GetRequest ("https://api.stockfighter.io/ob/api/venues/" ++ venue
                    ++ "/stocks/" ++ stock)]
  /\ requests_sent (events (FetchQuote c venue stock env))
     = [GetRequest ("https://api.stockfighter.io/ob/api/venues/" ++ venue
                    ++ "/stocks/" ++ stock ++ "/quote")]
  /\ requests_sent (events (FetchOrder c venue stock id env))
     = [GetRequest ("https://api.stockfighter.io/ob/api/venues/" ++ venue
                    ++ "/stocks/" ++ stock ++ "/orders/" ++ itoa id)]
  /\ requests_sent (events (CancelOrder c venue stock id env))
     = match newRequestError env MethodDelete
               ("https://api.stockfighter.io/ob/api/venues/" ++ venue
                ++ "/stocks/" ++ stock ++ "/orders/" ++ itoa id) with
       | Some _ => []
       | None =>
           [{| Method := "DELETE";
               URL := "https://api.stockfighter.io/ob/api/venues/" ++ venue
                      ++ "/stocks/" ++ stock ++ "/orders/" ++ itoa id;
               Header := [];
               Body := None |}]
       end.
Proof.
  repeat match goal with |- _ /\ _ => split end.
  - unfold Ping. walk.
  - unfold PingVenue. walk.
  - unfold FetchStocks. walk.
  - unfold FetchOrderbook. walk; rewrite append_empty_r; reflexivity.
  - unfold FetchQuote. walk.
  - unfold FetchOrder. walk; rewrite append_empty_r; reflexivity.
  - unfold CancelOrder, events, bind. rewrite PerformRequest_Delete.
    replace (Sprintf VENUE_ORDER_URL [AStr venue; AStr stock; AInt id])
      with ("https://api.stockfighter.io/ob/api/venues/" ++ venue
            ++ "/stocks/" ++ stock ++ "/orders/" ++ itoa id)
      by (cbn; now rewrite append_empty_r).
    destruct (newRequestError env MethodDelete _) as [e|]; [reflexivity|].
    destruct (roundTrip env _) as [[resp|] [e|]]; try reflexivity.
    destruct (Decode_ref _ _ _) as [[s|] [e|]]; try reflexivity.
    unfold deref, ret; cbn beta iota.
    repeat match goal with |- context [if ?b then _ else _] => destruct b end;
      reflexivity.
Qed.

(** The body of a response is closed once when the HTTP client returned the
    response without error, on every way out of the call (a decode error, a
    failed test, the panic on a [null] document), and never otherwise. *)
Theorem body_closed_once (c : Client) (venue stock account : string) (id : Z)
    (order : OrderRequest) (env : Env) :
  bodies_closed (events (Ping c env))
  = (if arrived (roundTrip env (GetRequest HEARTBEAT_URL)) then 1 else 0)%nat
  /\ bodies_closed (events (PingVenue c venue env))
     = (if arrived (roundTrip env (GetRequest (Sprintf VENUE_HEARTBEAT_URL [AStr venue])))
        then 1 else 0)%nat
  /\ bodies_closed (events (FetchStocks c venue env))
     = (if arrived (roundTrip env (GetRequest (Sprintf VENUE_STOCKS_URL [AStr venue])))
        then 1 else 0)%nat
  /\ bodies_closed (events (FetchOrderbook c venue stock env))
     = (if arrived (roundTrip env
                      (GetRequest (Sprintf VENUE_ORDERBOOK_URL [AStr venue; AStr stock])))
        then 1 else 0)%nat
  /\ bodies_closed (events (FetchQuote c venue stock env))
     = (if arrived (roundTrip env
                      (GetRequest (Sprintf VENUE_QUOTE_URL [AStr venue; AStr stock])))
        then 1 else 0)%nat
  /\ bodies_closed (events (FetchOrder c venue stock id env))
     = (if arrived (roundTrip env
                      (GetRequest
                         (Sprintf VENUE_ORDER_URL [AStr venue; AStr stock; AInt id])))
        then 1 else 0)%nat
  /\ bodies_closed (events (FetchAcctOrders c venue account env))
     = (if arrived (roundTrip env
                      (GetRequest
                         (Sprintf ACCT_EVERY_ORDERS_URL [AStr account; AStr venue])))
        then 1 else 0)%nat
  /\ bodies_closed (events (FetchAcctStockOrders c venue stock account env))
     = (if arrived (roundTrip env
                      (GetRequest
                         (Sprintf ACCT_STOCK_ORDERS_URL
                            [AStr account; AStr venue; AStr stock])))
        then 1 else 0)%nat
  /\ bodies_closed (events (PlaceOrder c venue stock order env))
     = (if arrived (roundTrip env
                      (PostRequest (Sprintf VENUE_ORDERS_URL [AStr venue; AStr stock])
                         (fst (Marshal_OrderRequest order)) None))
        then 1 else 0)%nat
  /\ bodies_closed (events (CancelOrder c venue stock id env))
     = (match newRequestError env MethodDelete
                (Sprintf VENUE_ORDER_URL [AStr venue; AStr stock; AInt id]) with
        | Some _ => 0
        | None =>
            if arrived (roundTrip env
                          (NewRequest MethodDelete
                             (Sprintf VENUE_ORDER_URL [AStr venue; AStr stock; AInt id])))
            then 1 else 0
        end)%nat.
Proof.
  repeat match goal with |- _ /\ _ => split end.
  - unfold Ping, arrived. walk.
  - unfold PingVenue, arrived. walk.
  - unfold FetchStocks, arrived. walk.
  - unfold FetchOrderbook, arrived. walk.
  - unfold FetchQuote, arrived. walk.
  - unfold FetchOrder, arrived. walk.
  - unfold FetchAcctOrders, arrived. walk.
  - unfold FetchAcctStockOrders, arrived. walk.
  - unfold PlaceOrder, Marshal_OrderRequest, arrived. cbn beta iota. cbn [fst]. walk.
  - unfold CancelOrder, arrived. walk.
Qed.

End Traces.

(* ------------------------------------------------------------------ *)
(** ** The draft of main.go *)

Section DraftResults.
Context `{TL : TimeLib}.

(** When the HTTP client reports an error, the four methods of the draft
    return their failure value: the draft tests the error before it touches
    the response. *)
Theorem draft_transport_error_is_failure (c : Client) (venue stock : string) (env : Env) :
  (forall r : Request, snd (roundTrip env r) <> None) ->
  outcome (MainGo.Heartbeat c env) = Return false
  /\ outcome (MainGo.VenueHeartbeat c venue env) = Return false
  /\ outcome (MainGo.VenueStocks c venue env) = Return None
  /\ outcome (MainGo.VenueOrders c venue stock env) = Return None.
Proof.
  intros HE.
  repeat match goal with |- _ /\ _ => split end;
    unfold MainGo.Heartbeat, MainGo.VenueHeartbeat, MainGo.VenueStocks,
      MainGo.VenueOrders, outcome, bind, println, http_Get, send;
    match goal with
    | |- context [roundTrip env ?r] =>
        specialize (HE r); destruct (roundTrip env r) as [resp [e|]];
        [reflexivity | exfalso; apply HE; reflexivity]
    end.
Qed.

(** A response whose status is not 200 makes the four methods of the draft
    return their failure value, whatever its body. *)
Theorem draft_status_not_200_is_failure (c : Client) (venue stock : string) (env : Env) :
  (forall r : Request,
     exists resp : Response,
       roundTrip env r = (Some resp, None) /\ StatusCode resp <> 200) ->
  outcome (MainGo.Heartbeat c env) = Return false
  /\ outcome (MainGo.VenueHeartbeat c venue env) = Return false
  /\ outcome (MainGo.VenueStocks c venue env) = Return None
  /\ outcome (MainGo.VenueOrders c venue stock env) = Return None.
Proof.
  intros HE.
  repeat match goal with |- _ /\ _ => split end;
    unfold MainGo.Heartbeat, MainGo.VenueHeartbeat, MainGo.VenueStocks,
      MainGo.VenueOrders, outcome, bind, println, http_Get, send;
    match goal with
    | |- context [roundTrip env ?r] =>
        destruct (HE r) as (resp & HR & HS); rewrite HR;
        apply Z.eqb_neq in HS;
        unfold deref, ret, defer; cbn beta iota; rewrite HS; reflexivity
    end.
Qed.

(** [Heartbeat] returns true exactly when a response arrived without error
    with status 200 and the struct the decoder leaves has a true success
    flag; an error of the decoder is not looked at. *)
Theorem Heartbeat_true_iff (c : Client) (env : Env) :
  outcome (MainGo.Heartbeat c env) = Return true <->
  exists (resp : Response) (s : StatusResponse) (err : option error),
    roundTrip env (GetRequest HEARTBEAT_URL) = (Some resp, None) /\
    StatusCode resp = 200 /\
    Decode_ref decoder (RespBody resp) (new StatusResponse) = (Some s, err) /\
    Ok s = true.
Proof.
  unfold MainGo.Heartbeat, outcome, bind, println, http_Get, send.
  destruct (roundTrip env (GetRequest HEARTBEAT_URL)) as [[resp|] [e|]] eqn:HR;
    try (split; [intros H; discriminate H
                | intros (resp' & s' & err' & H & _); discriminate H]).
  unfold deref, ret, defer; cbn beta iota.
  destruct (Z.eqb_spec (StatusCode resp) 200) as [HS|HS]; cbn beta iota.
  - destruct (Decode_ref decoder (RespBody resp) (new StatusResponse))
      as [[s|] err] eqn:HD; cbn beta iota.
    + destruct (Ok s) eqn:HO; cbn beta iota.
      * split; [intros _; exists resp, s, err; auto | reflexivity].
      * split; [intros H; discriminate H|].
        intros (resp' & s' & err' & HR' & _ & HD' & HO').
        inversion HR'; subst.
        pose proof (eq_trans (eq_sym HD') HD) as E. inversion E; subst. congruence.
    + split; [intros H; discriminate H|].
      intros (resp' & s' & err' & HR' & _ & HD' & _).
      inversion HR'; subst.
      pose proof (eq_trans (eq_sym HD') HD) as E. discriminate E.
  - split; [intros H; discriminate H|].
    intros (resp' & s' & err' & HR' & HS' & _). inversion HR'; subst. contradiction.
Qed.

(** [VenueStocks] returns a non-nil list exactly when a response arrived
    without error with status 200, its body decoded without error, and the
    list is the decoded one; the success flag of the reply is not read. *)
Theorem VenueStocks_some_iff (c : Client) (venue : string) (env : Env)
    (l : list MainGo.Symbol) :
  outcome (MainGo.VenueStocks c venue env) = Return (Some l) <->
  exists (resp : Response) (s : MainGo.StocksResponse),
    roundTrip env (GetRequest (Sprintf VENUE_STOCKS_URL [AStr venue]))
    = (Some resp, None) /\
    StatusCode resp = 200 /\
    Decode_val decoder (RespBody resp) (new MainGo.StocksResponse) = (s, None) /\
    MainGo.StocksResponse_Symbols s = Some l.
Proof.
  unfold MainGo.VenueStocks, outcome, bind, http_Get, send.
  destruct (roundTrip env _) as [[resp|] [e|]] eqn:HR;
    try (split; [intros H; discriminate H
                | intros (resp' & s' & H & _); discriminate H]).
  unfold deref, ret, defer; cbn beta iota.
  destruct (Z.eqb_spec (StatusCode resp) 200) as [HS|HS]; cbn beta iota.
  - destruct (Decode_val decoder (RespBody resp) (new MainGo.StocksResponse))
      as [s [e|]] eqn:HD; cbn beta iota.
    + split; [intros H; discriminate H|].
      intros (resp' & s' & HR' & _ & HD' & _). inversion HR'; subst.
      pose proof (eq_trans (eq_sym HD') HD) as E. discriminate E.
    + split.
      * intros H. inversion H as [HL]. exists resp, s. auto.
      * intros (resp' & s' & HR' & _ & HD' & HL). inversion HR'; subst.
        pose proof (eq_trans (eq_sym HD') HD) as E. inversion E; subst.
        cbn. now rewrite HL.
  - split; [intros H; discriminate H|].
    intros (resp' & s' & HR' & HS' & _). inversion HR'; subst. contradiction.
Qed.

(** [VenueOrders] returns a non-nil struct exactly when a response arrived
    without error with status 200: the struct is what the decoder left,
    with or without a decode error, and its success flag is not read. *)
Theorem VenueOrders_some_iff (c : Client) (venue stock : string) (env : Env)
    (r : MainGo.OrderResponse) :
  outcome (MainGo.VenueOrders c venue stock env) = Return (Some r) <->
  exists resp : Response,
    roundTrip env (GetRequest (Sprintf MainGo.VENUE_ORDERS_URL [AStr venue; AStr stock]))
    = (Some resp, None) /\
    StatusCode resp = 200 /\
    r = fst (Decode_val decoder (RespBody resp) (new MainGo.OrderResponse)).
Proof.
  unfold MainGo.VenueOrders, outcome, bind, http_Get, send.
  destruct (roundTrip env _) as [[resp|] [e|]] eqn:HR;
    try (split; [intros H; discriminate H
                | intros (resp' & H & _); discriminate H]).
  unfold deref, ret, defer; cbn beta iota.
  destruct (Z.eqb_spec (StatusCode resp) 200) as [HS|HS]; cbn beta iota.
  - destruct (Decode_val decoder (RespBody resp) (new MainGo.OrderResponse))
      as [s err] eqn:HD; cbn beta iota.
    split.
    + intros H. inversion H; subst. exists resp.
      repeat split; [assumption|]. exact (eq_sym (f_equal fst HD)).
    + intros (resp' & HR' & _ & HE). inversion HR'; subst resp'.
      assert (r = s) as -> by exact (eq_trans HE (f_equal fst HD)).
      reflexivity.
  - split; [intros H; discriminate H|].
    intros (resp' & HR' & HS' & _). inversion HR'; subst. contradiction.
Qed.

End DraftResults.

(* ------------------------------------------------------------------ *)
(** ** Listings, and the calls that do not fetch *)

Section Listing.
Context `{TL : TimeLib}.

Lemma dec_elements_listing (listing : list (string * string)) (saved : option error) :
  dec_elements zero_SymbolInfo (dec_struct "SymbolInfo" set_SymbolInfo)
    (map symbol_entry listing) saved
  = (map (fun p => {| SymbolInfo_Name := fst p; SymbolInfo_Symbol := snd p |}) listing,
     close_verdict saved).
Proof.
  revert saved. induction listing as [|p rest IH]; intros saved; [reflexivity|].
  cbn [map dec_elements]. unfold symbol_entry at 1.
  change (dec_struct "SymbolInfo" set_SymbolInfo
            (JObj [("name", JStr (fst p)); ("symbol", JStr (snd p))]) zero_SymbolInfo)
    with ({| SymbolInfo_Name := fst p; SymbolInfo_Symbol := snd p |}, Fine).
  cbn beta iota. rewrite IH. destruct saved; reflexivity.
Qed.

(** [FetchStocks] against a listing the server writes as one object per
    instrument returns the instruments of the listing, each with its name
    and symbol, in the order of the document, whatever the status code of
    the response. *)
Theorem FetchStocks_listing (c : Client) (venue : string) (env : Env) (resp : Response)
    (listing : list (string * string)) :
  roundTrip env (GetRequest (Sprintf VENUE_STOCKS_URL [AStr venue])) = (Some resp, None) ->
  RespBody resp = Some (stocks_reply listing) ->
  outcome (FetchStocks c venue env)
  = Return (Some (map (fun p => {| SymbolInfo_Name := fst p; SymbolInfo_Symbol := snd p |})
                    listing)).
Proof.
  intros HR HB. unfold FetchStocks, outcome, bind.
  rewrite PerformRequest_Get, HR, HB.
  unfold stocks_reply, Decode_ref, decoder, Shape_VenueStocksResponse, dec_struct.
  cbn [dec_members].
  change (set_VenueStocksResponse "ok" (JBool true) (new VenueStocksResponse))
    with (Some ({| VenueStocksResponse_HasOk := {| HasOk_Ok := true |};
                   VenueStocksResponse_Symbols := None |}, Fine)).
  cbn beta iota.
  unfold set_VenueStocksResponse, orelse, embedded, set_HasOk, field.
  change (key_eq "symbols" "ok") with false.
  change (key_eq "symbols" "symbols") with true.
  cbn beta iota. unfold dec_slice. rewrite dec_elements_listing.
  reflexivity.
Qed.

(** [CancelOrder] panics exactly when the request was built and the HTTP
    client returned neither a response nor an error, or returned a response
    without error whose document is [null]; no error makes it panic. *)
Theorem CancelOrder_panics_iff (c : Client) (venue stock : string) (id : Z) (env : Env) :
  (exists msg, outcome (CancelOrder c venue stock id env) = Panic msg) <->
  newRequestError env MethodDelete
    (Sprintf VENUE_ORDER_URL [AStr venue; AStr stock; AInt id]) = None /\
  (roundTrip env
     (NewRequest MethodDelete (Sprintf VENUE_ORDER_URL [AStr venue; AStr stock; AInt id]))
   = (None, None)
   \/ exists resp : Response,
        roundTrip env
          (NewRequest MethodDelete
             (Sprintf VENUE_ORDER_URL [AStr venue; AStr stock; AInt id]))
        = (Some resp, None)
        /\ RespBody resp = Some JNull).
Proof.
  unfold CancelOrder, outcome, bind. rewrite PerformRequest_Delete.
  destruct (newRequestError env MethodDelete _) as [e|].
  { split; [intros [msg H]; discriminate H | intros [H _]; discriminate H]. }
  destruct (roundTrip env _) as [[resp|] [e|]].
  - split; [intros [msg H]; discriminate H|].
    intros [_ [H | (r & H & _)]]; discriminate H.
  - destruct (Decode_ref decoder (RespBody resp) (new OrderResponse))
      as [[s|] err] eqn:HD.
    + apply Decode_ref_not_nil in HD. split.
      * destruct err; unfold deref, ret; cbn beta iota;
          repeat match goal with |- context [if ?b then _ else _] => destruct b end;
          intros [msg H]; discriminate H.
      * intros [_ [H | (r & H & B)]]; [discriminate H|].
        inversion H; subst. contradiction.
    + apply Decode_ref_nil in HD. destruct HD as [HB ->]. split.
      * intros _. split; [reflexivity|]. right. exists resp. auto.
      * intros _. eexists. reflexivity.
  - split; [intros [msg H]; discriminate H|].
    intros [_ [H | (r & H & _)]]; discriminate H.
  - split; [|intros _; eexists; reflexivity].
    intros _. split; [reflexivity|]. left. reflexivity.
Qed.

(** [PlaceOrder] gives one of two outcomes: it panics when the HTTP client
    returned no response, and returns nil otherwise; the reply is never read
    after the call, so a [null] document does not make it panic. *)
Theorem PlaceOrder_outcomes (c : Client) (venue stock : string) (order : OrderRequest)
    (env : Env) :
  outcome (PlaceOrder c venue stock order env)
  = match fst (roundTrip env
                 (PostRequest (Sprintf VENUE_ORDERS_URL [AStr venue; AStr stock])
                    (fst (Marshal_OrderRequest order)) None)) with
    | None => Panic nil_dereference
    | Some _ => Return None
    end.
Proof.
  unfold PlaceOrder, Marshal_OrderRequest, outcome, bind. cbn beta iota. cbn [fst].
  rewrite PerformRequest_Post.
  destruct (roundTrip env _) as [[resp|] [e|]]; cbn [fst]; try reflexivity.
  destruct (Decode_ref _ _ _) as [p err]. reflexivity.
Qed.

End Listing.

(* ------------------------------------------------------------------ *)
(** ** The results above on concrete replies *)

Lemma Ping_true_iff_witness :
  outcome (Ping a_client (answering (ok200 ok_reply))) = Return true.
Proof.
  apply (proj2 (Ping_true_iff a_client (answering (ok200 ok_reply)))).
  eexists. eexists.
  split; [reflexivity|]. split; [vm_compute; reflexivity | reflexivity].
Defined.

Lemma PingVenue_true_iff_witness :
  outcome (PingVenue a_client "TESTEX" (answering (ok200 (venue_reply "TESTEX"))))
  = Return true.
Proof.
  apply (proj2 (PingVenue_true_iff a_client "TESTEX"
                  (answering (ok200 (venue_reply "TESTEX"))))).
  eexists. eexists.
  split; [reflexivity|]. split; [vm_compute; reflexivity | reflexivity].
Defined.

Lemma FetchStocks_some_iff_witness :
  outcome (FetchStocks a_client "TESTEX" (answering (ok200 (stocks_reply tea_listing))))
  = Return (Some [ {| SymbolInfo_Name := "American Tea"; SymbolInfo_Symbol := "ATEA" |};
                   {| SymbolInfo_Name := "Foo Bar Industries";
                      SymbolInfo_Symbol := "FOOBAR" |} ]).
Proof.
  apply (proj2 (FetchStocks_some_iff a_client "TESTEX"
                  (answering (ok200 (stocks_reply tea_listing))) _)).
  eexists. eexists.
  split; [reflexivity|]. split; [vm_compute; reflexivity|].
  split; reflexivity.
Defined.

Lemma FetchOrder_some_iff_witness :
  exists r : OrderResponse,
    outcome (FetchOrder (TL := TextTime) a_client "TESTEX" "FOOBAR" 123
               (answering (ok200 (cancel_reply "TESTEX" true))))
    = Return (Some r).
Proof.
  eexists.
  apply (proj2 (@FetchOrder_some_iff TextTime a_client "TESTEX" "FOOBAR" 123
                  (answering (ok200 (cancel_reply "TESTEX" true))) _)).
  eexists.
  split; [reflexivity|]. split; [vm_compute; reflexivity|].
  split; reflexivity.
Defined.

Lemma FetchOrderbook_some_iff_witness :
  exists r : OrderbookResponse,
    outcome (FetchOrderbook (TL := TextTime) a_client "TESTEX" "FOOBAR"
               (answering (ok200 (book_reply "TESTEX" "FOOBAR"))))
    = Return (Some r).
Proof.
  eexists.
  apply (proj2 (@FetchOrderbook_some_iff TextTime a_client "TESTEX" "FOOBAR"
                  (answering (ok200 (book_reply "TESTEX" "FOOBAR"))) _)).
  eexists.
  split; [reflexivity|]. split; [vm_compute; reflexivity|].
  repeat split; reflexivity.
Defined.

Lemma FetchQuote_some_iff_witness :
  exists r : QuoteResponse,
    outcome (FetchQuote (TL := TextTime) a_client "TESTEX" "FOOBAR"
               (answering (ok200 (book_reply "TESTEX" "FOOBAR"))))
    = Return (Some r).
Proof.
  eexists.
  apply (proj2 (@FetchQuote_some_iff TextTime a_client "TESTEX" "FOOBAR"
                  (answering (ok200 (book_reply "TESTEX" "FOOBAR"))) _)).
  eexists.
  split; [reflexivity|]. split; [vm_compute; reflexivity | reflexivity].
Defined.

Lemma FetchAcctOrders_some_iff_witness :
  outcome (FetchAcctOrders (TL := TextTime) a_client "TESTEX" "ACC1"
             (answering (ok200 (orders_reply "TESTEX"))))
  = Return (Some []).
Proof.
  apply (proj2 (@FetchAcctOrders_some_iff TextTime a_client "TESTEX" "ACC1"
                  (answering (ok200 (orders_reply "TESTEX"))) [])).
  eexists. eexists.
  split; [reflexivity|]. split; [vm_compute; reflexivity|].
  repeat split; reflexivity.
Defined.

Lemma FetchAcctStockOrders_some_iff_witness :
  outcome (FetchAcctStockOrders (TL := TextTime) a_client "TESTEX" "FOOBAR" "ACC1"
             (answering (ok200 (orders_reply "TESTEX"))))
  = Return (Some []).
Proof.
  apply (proj2 (@FetchAcctStockOrders_some_iff TextTime a_client "TESTEX" "FOOBAR" "ACC1"
                  (answering (ok200 (orders_reply "TESTEX"))) [])).
  eexists. eexists.
  split; [reflexivity|]. split; [vm_compute; reflexivity|].
  repeat split; reflexivity.
Defined.

Lemma PerformRequest_sends_nothing_witness :
  PerformRequest HEARTBEAT_URL "PUT" None (new StatusResponse) unreachable
  = ([], Panic nil_dereference).
Proof.
  apply (proj1 (PerformRequest_sends_nothing HEARTBEAT_URL "PUT" None
                  (new StatusResponse) unreachable)); discriminate.
Defined.

Lemma fetch_panics_iff_witness :
  exists msg, outcome (Ping a_client unreachable) = Panic msg.
Proof.
  apply (proj2 (proj1 (@fetch_panics_iff TextTime a_client "TESTEX" "FOOBAR" "ACC1" 123
                         unreachable))).
  left. reflexivity.
Defined.

Lemma CancelOrder_error_is_false_witness :
  CancelOrder (TL := TextTime) a_client "TESTEX" "FOOBAR" 123 unbuildable
  = ([], Return false)
  /\ outcome (CancelOrder (TL := TextTime) a_client "TESTEX" "FOOBAR" 123 unreachable)
     = Return false.
Proof.
  split.
  - eapply (proj1 (@CancelOrder_error_is_false TextTime a_client "TESTEX" "FOOBAR" 123
                     unbuildable)).
    reflexivity.
  - erewrite (proj2 (@CancelOrder_error_is_false TextTime a_client "TESTEX" "FOOBAR" 123
                       unreachable)); reflexivity.
Defined.

Lemma CancelOrder_panics_iff_witness :
  exists msg,
    outcome (CancelOrder (TL := TextTime) a_client "TESTEX" "FOOBAR" 123
               (answering (ok200 JNull)))
    = Panic msg.
Proof.
  apply (proj2 (@CancelOrder_panics_iff TextTime a_client "TESTEX" "FOOBAR" 123
                  (answering (ok200 JNull)))).
  split; [reflexivity|]. right. eexists. split; reflexivity.
Defined.

Lemma FetchStocks_listing_witness :
  outcome (FetchStocks a_client "TESTEX"
             (answering {| StatusCode := 200; RespBody := Some (stocks_reply tea_listing) |}))
  = Return (Some [ {| SymbolInfo_Name := "American Tea"; SymbolInfo_Symbol := "ATEA" |};
                   {| SymbolInfo_Name := "Foo Bar Industries";
                      SymbolInfo_Symbol := "FOOBAR" |} ]).
Proof.
  apply (@FetchStocks_listing a_client "TESTEX"
           (answering {| StatusCode := 200; RespBody := Some (stocks_reply tea_listing) |})
           {| StatusCode := 200; RespBody := Some (stocks_reply tea_listing) |}
           tea_listing); reflexivity.
Defined.

Lemma draft_transport_error_is_failure_witness :
  outcome (MainGo.Heartbeat a_client unreachable) = Return false
  /\ outcome (MainGo.VenueHeartbeat a_client "TESTEX" unreachable) = Return false
  /\ outcome (MainGo.VenueStocks a_client "TESTEX" unreachable) = Return None
  /\ outcome (MainGo.VenueOrders (TL := TextTime) a_client "TESTEX" "FOOBAR" unreachable)
     = Return None.
Proof.
  apply (@draft_transport_error_is_failure TextTime a_client "TESTEX" "FOOBAR" unreachable).
  intros r. discriminate.
Defined.

Lemma draft_status_not_200_is_failure_witness :
  outcome (MainGo.Heartbeat a_client
             (answering {| StatusCode := 500; RespBody := Some ok_reply |}))
  = Return false
  /\ outcome (MainGo.VenueHeartbeat a_client "TESTEX"
                (answering {| StatusCode := 500; RespBody := Some ok_reply |}))
     = Return false
  /\ outcome (MainGo.VenueStocks a_client "TESTEX"
                (answering {| StatusCode := 500; RespBody := Some ok_reply |}))
     = Return None
  /\ outcome (MainGo.VenueOrders (TL := TextTime) a_client "TESTEX" "FOOBAR"
                (answering {| StatusCode := 500; RespBody := Some ok_reply |}))
     = Return None.
Proof.
  apply (@draft_status_not_200_is_failure TextTime a_client "TESTEX" "FOOBAR"
           (answering {| StatusCode := 500; RespBody := Some ok_reply |})).
  intros r. eexists. split; [reflexivity | discriminate].
Defined.

Lemma Heartbeat_true_iff_witness :
  outcome (MainGo.Heartbeat a_client
             (answering (ok200 (JObj [("ok", JBool true); ("error", JNum 5)]))))
  = Return true.
Proof.
  apply (proj2 (Heartbeat_true_iff a_client
                  (answering (ok200 (JObj [("ok", JBool true); ("error", JNum 5)]))))).
  eexists. eexists. eexists.
  split; [reflexivity|]. split; [reflexivity|].
  split; [vm_compute; reflexivity | reflexivity].
Defined.

Lemma VenueStocks_some_iff_witness :
  outcome (MainGo.VenueStocks a_client "TESTEX"
             (answering (ok200 (JObj [("ok", JBool false);
                                      ("symbols", JArr [JObj [("symbol", JStr "ATEA")]])]))))
  = Return (Some [{| MainGo.Symbol_Name := EmptyString; MainGo.Symbol_Symbol := "ATEA" |}]).
Proof.
  apply (proj2 (VenueStocks_some_iff a_client "TESTEX"
                  (answering (ok200 (JObj [("ok", JBool false);
                                           ("symbols",
                                            JArr [JObj [("symbol", JStr "ATEA")]])]))) _)).
  eexists. eexists.
  split; [reflexivity|]. split; [reflexivity|].
  split; [vm_compute; reflexivity | reflexivity].
Defined.

Lemma VenueOrders_some_iff_witness :
  exists r : MainGo.OrderResponse,
    outcome (MainGo.VenueOrders (TL := TextTime) a_client "TESTEX" "FOOBAR"
               (answering {| StatusCode := 200; RespBody := None |}))
    = Return (Some r).
Proof.
  eexists.
  apply (proj2 (@VenueOrders_some_iff TextTime a_client "TESTEX" "FOOBAR"
                  (answering {| StatusCode := 200; RespBody := None |}) _)).
  eexists. split; [reflexivity|]. split; reflexivity.
Defined.

